(** * BLE advertisement scanners: [ble_scan_manu.py] and [ble_scan_uuid128.py]

    A shallow embedding of the two scanner scripts.  Both scripts share the
    same shape: an allow-list loader, a payload parser and a per-event
    [callback] that filters, decodes and prints.  What a script prints is
    modelled as the list of printed lines; an uncaught Python exception is
    modelled as an explicit outcome.

    Text is modelled as Rocq strings of code points below 128 (MAC
    addresses and canonical UUIDs are ASCII); code points from 128 up are
    carried through unchanged by [upper], [lower] and [strip]. *)

From Stdlib Require Import ZArith String Ascii List Floats Uint63.
From Stdlib Require Import DecimalString Strings.Byte Lia.
From stdpp Require Import gmap strings list.

Local Open Scope string_scope.
Local Open Scope list_scope.

(** ** Printed output and exceptions *)

Inductive exn : Set :=
  | FileNotFoundError
  | PermissionError
  | IsADirectoryError
  | UnicodeDecodeError
  | StructError
  | TypeError.

Inductive outcome (A : Type) : Type :=
  | Done (a : A)
  | Raised (e : exn).
Arguments Done {A} a.
Arguments Raised {A} e.

(** A computation prints some lines and then returns or raises. *)
Definition io (A : Type) : Type := (list string * outcome A)%type.

Definition raise {A} (e : exn) : io A := ([], Raised e).
Definition print (line : string) : io unit := ([line], Done tt).

#[global] Instance io_ret : MRet io := fun A a => ([], Done a).
#[global] Instance io_bind : MBind io := fun A B k c =>
  match c with
  | (o1, Done a) => let '(o2, r) := k a in (o1 ++ o2, r)
  | (o1, Raised e) => (o1, Raised e)
  end.

Definition printed {A} (c : io A) : list string := fst c.
Definition result {A} (c : io A) : outcome A := snd c.

(** ** The Python built-ins the scripts rely on *)

Module Py.

Abbreviation bytes := (list byte).

Definition byte_val (b : byte) : Z := Z.of_N (Byte.to_N b).

(** [str.isspace] on one code point below 128: TAB..CR, FS..US, SPACE. *)
Definition isspace (c : ascii) : bool :=
  let n := nat_of_ascii c in
  ((9 <=? n) && (n <=? 13) || (28 <=? n) && (n <=? 32))%nat.

Fixpoint lstrip (s : string) : string :=
  match s with
  | EmptyString => EmptyString
  | String c s' => if isspace c then lstrip s' else s
  end.

(** Drops trailing white space: a character is kept when it is not a
    space or when something is kept after it. *)
Fixpoint rstrip (s : string) : string :=
  match s with
  | EmptyString => EmptyString
  | String c s' =>
      match rstrip s' with
      | EmptyString => if isspace c then EmptyString else String c EmptyString
      | r => String c r
      end
  end.

Definition strip (s : string) : string := rstrip (lstrip s).

(** [str.upper] and [str.lower] on one code point below 128; a character
    from 128 on is left as it is, which is what Python does on ASCII text
    only. *)
Definition upper_char (c : ascii) : ascii :=
  let n := nat_of_ascii c in
  if ((97 <=? n) && (n <=? 122))%nat then ascii_of_nat (n - 32) else c.

Definition lower_char (c : ascii) : ascii :=
  let n := nat_of_ascii c in
  if ((65 <=? n) && (n <=? 90))%nat then ascii_of_nat (n + 32) else c.

Fixpoint map_chars (f : ascii -> ascii) (s : string) : string :=
  match s with
  | EmptyString => EmptyString
  | String c s' => String (f c) (map_chars f s')
  end.

Definition upper : string -> string := map_chars upper_char.
Definition lower : string -> string := map_chars lower_char.

(** Truth value of a string: empty is false. *)
Definition truthy_str (s : string) : bool :=
  match s with EmptyString => false | _ => true end.

(** [str(n)] for an integer. *)
Definition str_of_int (n : Z) : string := NilZero.string_of_int (Z.to_int n).

Fixpoint repeat_char (c : ascii) (n : nat) : string :=
  match n with
  | O => EmptyString
  | S n' => String c (repeat_char c n')
  end.

(** Right-alignment in a field of [width], as the format spec [>width]
    (and the default alignment of numbers); longer texts are kept whole. *)
Definition rjust (fill : ascii) (width : nat) (s : string) : string :=
  repeat_char fill (width - String.length s) +:+ s.

(** *** [struct.unpack("<h", b)[0]] *)

Definition unpack_le_h (b : option bytes) : io Z :=
  match b with
  | None => raise TypeError
  | Some [b0; b1] =>
      let u := Z.lor (byte_val b0) (Z.shiftl (byte_val b1) 8) in
      mret (if Z.testbit u 15 then (u - 65536)%Z else u)
  | Some _ => raise StructError
  end.

(** *** Format spec [02X] *)

Definition hex_char_upper (d : N) : ascii :=
  ascii_of_N (if (d <? 10)%N then 48 + d else 55 + d)%N.

Fixpoint hex_upper_pos (fuel : nat) (n : N) (acc : string) : string :=
  match fuel with
  | O => acc
  | S fuel' =>
      let acc' := String (hex_char_upper (n mod 16)) acc in
      if (n / 16 =? 0)%N then acc' else hex_upper_pos fuel' (n / 16)%N acc'
  end.

(** Upper-case hexadecimal digits of a non-negative integer. *)
Definition hex_upper (n : Z) : string :=
  let m := Z.to_N n in
  hex_upper_pos (S (N.to_nat (N.log2 m))) m EmptyString.

Definition format_02X (n : Z) : string := rjust "0" 2 (hex_upper n).

(** *** Format spec [>4] on an integer *)

Definition format_r4 (n : Z) : string := rjust " " 4 (str_of_int n).

(** *** [n / 100.0] and the format spec [6.2f]

    The quotient is the IEEE 754 binary64 division of the converted
    integer by the literal 100.0.  The conversion is exact below 2^53 in
    magnitude; the scripts only convert 16-bit values. *)

Definition float_of_int (n : Z) : float :=
  if (n <? 0)%Z then PrimFloat.opp (PrimFloat.of_uint63 (Uint63.of_Z (- n)))
  else PrimFloat.of_uint63 (Uint63.of_Z n).

Definition hundred : float := PrimFloat.of_uint63 100%uint63.

Definition truediv_100 (n : Z) : float :=
  PrimFloat.div (float_of_int n) hundred.

(** [n / d] rounded to the nearest integer, ties to even ([0 < d]). *)
Definition round_half_even (n d : Z) : Z :=
  let q := (n / d)%Z in
  let r := (n mod d)%Z in
  if (2 * r <? d)%Z then q
  else if (d <? 2 * r)%Z then (q + 1)%Z
  else if Z.even q then q else (q + 1)%Z.

(** Sign, integer part, point and two decimals of [h] hundredths. *)
Definition fixed2 (neg : bool) (h : Z) : string :=
  (if neg then "-" else "") +:+ str_of_int (h / 100) +:+ "."
    +:+ rjust "0" 2 (str_of_int (h mod 100)).

(** The exact binary value [m * 2^e] in hundredths, correctly rounded. *)
Definition round_hundredths (m : positive) (e : Z) : Z :=
  if (0 <=? e)%Z then (Z.pos m * 2 ^ e * 100)%Z
  else round_half_even (Z.pos m * 100) (2 ^ (- e)).

(** Precision [.2f]. *)
Definition format_2f (f : float) : string :=
  match Prim2SF f with
  | S754_zero neg => fixed2 neg 0
  | S754_infinity neg => if neg then "-inf" else "inf"
  | S754_nan => "nan"
  | S754_finite neg m e => fixed2 neg (round_hundredths m e)
  end.

Definition format_6_2f (f : float) : string := rjust " " 6 (format_2f f).

(** *** Slices, truth values *)

(** [l[i:j]] for [0 <= i <= j]. *)
Definition slice {A} (i j : nat) (l : list A) : list A :=
  take (j - i) (drop i l).

(** [x or default] for an optional string: [None] and the empty string
    are both false. *)
Definition str_or (x : option string) (default : string) : string :=
  match x with
  | Some s => if truthy_str s then s else default
  | None => default
  end.

(** *** Reading a text file line by line *)

Definition LF : ascii := ascii_of_nat 10.
Definition CR : ascii := ascii_of_nat 13.

(** Text mode translates CR LF and a lone CR to LF. *)
Fixpoint universal_newlines (s : string) : string :=
  match s with
  | EmptyString => EmptyString
  | String c s' =>
      if Ascii.eqb c CR then
        String LF
          match s' with
          | String c' s'' =>
              if Ascii.eqb c' LF then universal_newlines s''
              else universal_newlines s'
          | EmptyString => EmptyString
          end
      else String c (universal_newlines s')
  end.

(** The lines of a text, each one with its terminating LF when it has
    one. *)
Fixpoint split_keepends (s : string) : list string :=
  match s with
  | EmptyString => []
  | String c s' =>
      if Ascii.eqb c LF then String c EmptyString :: split_keepends s'
      else
        match split_keepends s' with
        | [] => [String c EmptyString]
        | l :: ls => String c l :: ls
        end
  end.

(** What [for line in f] yields for a file holding [text]. *)
Definition file_lines (text : string) : list string :=
  split_keepends (universal_newlines text).

(** [{f(x) for x in xs if p(x)}]: the elements are added one by one. *)
Definition set_comprehension (f : string -> string) (p : string -> bool)
    (xs : list string) : gset string :=
  foldl (fun acc x => if p x then {[ f x ]} ∪ acc else acc) ∅ xs.

(** What opening a path for reading and reading it to the end does. *)
Inductive file_outcome : Type :=
  | Readable (text : string)
  | Unreadable (e : exn).

Definition filesystem : Type := string -> file_outcome.

End Py.

(** ** What the BLE stack hands to a callback *)

Record BLEDevice : Type := {
  address : string;
  name : option string
}.

(** [manufacturer_data] is a dict from company identifiers to payloads;
    [service_data] is a dict from UUID strings to payloads, iterated in
    insertion order, and may be [None].  It is given as the list of its
    items; that the keys of a dict are distinct is stated where a property
    depends on it. *)
Record AdvertisementData : Type := {
  manufacturer_data : gmap Z Py.bytes;
  service_data : option (list (string * Py.bytes));
  rssi : Z
}.

(** ** [ble_scan_manu.py] *)

Module Manu.

Definition load_mac_list (fs : Py.filesystem) (path : string)
    : io (option (gset string)) :=
  match fs path with
  | Py.Readable text =>
      let macs :=
        Py.set_comprehension (fun line => Py.upper (Py.strip line))
          (fun line => Py.truthy_str (Py.strip line)) (Py.file_lines text) in
      print ("✅ Lista de MACs carregada ("
               +:+ Py.str_of_int (Z.of_nat (size macs)) +:+ " entradas).");;
      mret (Some macs)
  | Py.Unreadable FileNotFoundError =>
      print ("⚠️ Arquivo '" +:+ path
               +:+ "' não encontrado – sem filtro de MAC.");;
      mret None
  | Py.Unreadable e => raise e
  end.

Definition parse_sensor_type_and_value (advertisement_data : AdvertisementData)
    : option Z * option Py.bytes :=
  match manufacturer_data advertisement_data !! 65535%Z with
  | None => (None, None)
  | Some [] => (None, None)
  | Some ((b0 :: _) as payload) =>
      if (length payload <? 3)%nat then (None, None)
      else (Some (Py.byte_val b0), Some (Py.slice 1 3 payload))
  end.

(** [mac_filter and device.address.upper() not in mac_filter]: [None]
    and the empty set are both false. *)
Definition rejected (mac_filter : option (gset string)) (device : BLEDevice)
    : bool :=
  match mac_filter with
  | None => false
  | Some s =>
      if decide (s = ∅) then false
      else bool_decide (Py.upper (address device) ∉ s)
  end.

Definition callback (mac_filter : option (gset string))
    (device : BLEDevice) (advertisement_data : AdvertisementData) : io unit :=
  if rejected mac_filter device then mret tt
  else
    let '(sensor_type, value_bytes) :=
      parse_sensor_type_and_value advertisement_data in
    match sensor_type with
    | None => mret tt
    | Some sensor_type =>
        let nome := Py.str_or (name device) "Desconhecido" in
        if (sensor_type =? 1)%Z then
          t_centi ← Py.unpack_le_h value_bytes;
          let temp_c := Py.truediv_100 t_centi in
          print (address device +:+ "  RSSI "
                   +:+ Py.format_r4 (rssi advertisement_data) +:+ " dBm  "
                   +:+ "Temp " +:+ Py.format_6_2f temp_c
                   +:+ " °C  Nome: " +:+ nome)
        else if negb (sensor_type =? 0)%Z then
          print (address device +:+ "  RSSI "
                   +:+ Py.format_r4 (rssi advertisement_data) +:+ " dBm  "
                   +:+ "Sensor desconhecido (tipo "
                   +:+ Py.format_02X sensor_type +:+ ")  Nome: " +:+ nome)
        else mret tt
    end.

(** The start of the script: [mac_filter] stays [None] unless [-m] was
    given a non-empty path. *)
Definition configure (fs : Py.filesystem) (args_macs : option string)
    : io (option (gset string)) :=
  match args_macs with
  | Some path =>
      if Py.truthy_str path then load_mac_list fs path else mret None
  | None => mret None
  end.

End Manu.

(** ** [ble_scan_uuid128.py] *)

Module Uuid128.

Definition load_mac_list : Py.filesystem -> string -> io (option (gset string)) :=
  Manu.load_mac_list.

Definition load_uuid128_list (fs : Py.filesystem) (path : string)
    : io (option (gset string)) :=
  match fs path with
  | Py.Readable text =>
      let uuids :=
        Py.set_comprehension (fun line => Py.lower (Py.strip line))
          (fun line => Py.truthy_str (Py.strip line)) (Py.file_lines text) in
      print ("✅ Lista de UUIDs carregada ("
               +:+ Py.str_of_int (Z.of_nat (size uuids)) +:+ " entradas).");;
      mret (Some uuids)
  | Py.Unreadable FileNotFoundError =>
      print ("⚠️ Arquivo '" +:+ path
               +:+ "' não encontrado – sem filtro de UUID128.");;
      mret None
  | Py.Unreadable e => raise e
  end.

(** The generator, as the list of the pairs it yields. *)
Definition get_service_data_payload (advertisement_data : AdvertisementData)
    : list (string * Py.bytes) :=
  let sd := default [] (service_data advertisement_data) in
  map (fun '(uuid_str, payload) => (Py.lower uuid_str, payload)) sd.

Definition parse_service_data (payload : option Py.bytes)
    : option Z * option Py.bytes :=
  match payload with
  | None => (None, None)
  | Some [] => (None, None)
  | Some ((b0 :: _) as payload) =>
      let sensor_type := Py.byte_val b0 in
      let value_bytes :=
        if (3 <=? length payload)%nat then Some (Py.slice 1 3 payload)
        else None in
      (Some sensor_type, value_bytes)
  end.

(** [flt is not None and x not in flt]. *)
Definition filtered_out (flt : option (gset string)) (x : string) : bool :=
  match flt with
  | None => false
  | Some s => bool_decide (x ∉ s)
  end.

(** One turn of the loop of [callback]. *)
Definition callback_entry (uuid128_filter : option (gset string))
    (device : BLEDevice) (advertisement_data : AdvertisementData)
    (entry : string * Py.bytes) : io unit :=
  let '(uuid_str, payload) := entry in
  if filtered_out uuid128_filter uuid_str then mret tt
  else
    let '(sensor_type, value_bytes) := parse_service_data (Some payload) in
    match sensor_type with
    | None => mret tt
    | Some sensor_type =>
        let nome := Py.str_or (name device) "Desconhecido" in
        if (sensor_type =? 1)%Z && bool_decide (value_bytes ≠ None) then
          t_centi ← Py.unpack_le_h value_bytes;
          let temp_c := Py.truediv_100 t_centi in
          print (address device +:+ "  RSSI "
                   +:+ Py.format_r4 (rssi advertisement_data) +:+ " dBm  "
                   +:+ "Temp " +:+ Py.format_6_2f temp_c
                   +:+ " °C  UUID: " +:+ uuid_str +:+ "  Nome: " +:+ nome)
        else if negb (sensor_type =? 0)%Z then
          print (address device +:+ "  RSSI "
                   +:+ Py.format_r4 (rssi advertisement_data) +:+ " dBm  "
                   +:+ "Sensor desconhecido (tipo "
                   +:+ Py.format_02X sensor_type +:+ ")  UUID: " +:+ uuid_str
                   +:+ "  Nome: " +:+ nome)
        else mret tt
    end.

Fixpoint for_each {A} (xs : list A) (body : A -> io unit) : io unit :=
  match xs with
  | [] => mret tt
  | x :: xs' => body x;; for_each xs' body
  end.

Definition callback (mac_filter uuid128_filter : option (gset string))
    (device : BLEDevice) (advertisement_data : AdvertisementData) : io unit :=
  if filtered_out mac_filter (Py.upper (address device)) then mret tt
  else
    for_each (get_service_data_payload advertisement_data)
      (callback_entry uuid128_filter device advertisement_data).

(** The start of the script: each filter stays [None] unless its option
    was given a non-empty path. *)
Definition configure (fs : Py.filesystem) (args_macs args_uuid128 : option string)
    : io (option (gset string) * option (gset string)) :=
  mac_filter ←
    match args_macs with
    | Some path =>
        if Py.truthy_str path then load_mac_list fs path else mret None
    | None => mret None
    end;
  uuid128_filter ←
    match args_uuid128 with
    | Some path =>
        if Py.truthy_str path then load_uuid128_list fs path else mret None
    | None => mret None
    end;
  mret (mac_filter, uuid128_filter).

End Uuid128.

(** ** The scan driver: [run] and the start of each script

    [run] awaits calls of the BLE stack and of the event loop.  What each
    awaited call does is given by a [world]; the calls [run] makes are
    recorded in order.  The loop [while True] is run for a bounded number
    of turns; a run that has not left the loop by then is [Scanning].
    The scripts start [run] with [asyncio.run], which decides how the
    script ends once the coroutine has ended. *)

Module Driver.

(** What an awaited call may raise inside [run]. *)
Inductive raised : Set :=
| KeyboardInterrupt
| CancelledError
| BleakError.

Inductive event : Type :=
| Print (line : string)
| Create
| Start
| Sleep (seconds : Z)
| Stop.

(** The outcome of [BleakScanner(callback)], of [scanner.start()], of the
    [k]-th [asyncio.sleep] and of [scanner.stop()]: [None] when the call
    returns.  The last two fields are what [asyncio.run] looks at when the
    coroutine ends: the number of Ctrl+C it has handled (each of which
    asks the main task to cancel, so that the coroutine sees
    [CancelledError] at the call it awaits), and the number of requests
    to cancel the main task that are pending. *)
Record world : Type := {
  create : option raised;
  start : option raised;
  sleep : nat -> option raised;
  stop : option raised;
  interrupt_count : nat;
  cancel_requests : nat
}.

Inductive status : Type :=
| Returned
| Raising (e : raised)
| Scanning.

Definition proc : Type := (list event * status)%type.

Definition call (ev : event) (answer : option raised) : proc :=
  ([ev], match answer with None => Returned | Some e => Raising e end).

Definition print_line (line : string) : proc := ([Print line], Returned).

(** [p] and then [k], when [p] returns. *)
Definition and_then (p k : proc) : proc :=
  match p with
  | (t, Returned) => (t ++ k.1, k.2)
  | _ => p
  end.

(** [try: p / except KeyboardInterrupt: handler]. *)
Definition except_keyboard_interrupt (p handler : proc) : proc :=
  match p with
  | (t, Raising KeyboardInterrupt) => (t ++ handler.1, handler.2)
  | _ => p
  end.

(** [try: p / finally: cleanup]: the clean-up runs when [p] is left, and
    an exception of the clean-up replaces the one in flight. *)
Definition finally (p cleanup : proc) : proc :=
  match p with
  | (t, Scanning) => (t, Scanning)
  | (t, s) =>
      match cleanup with
      | (t', Returned) => (t ++ t', s)
      | (t', s') => (t ++ t', s')
      end
  end.

(** [while True: await asyncio.sleep(1)], from the [k]-th sleep on. *)
Fixpoint sleep_loop (w : world) (turns k : nat) : proc :=
  match turns with
  | O => ([], Scanning)
  | S turns' => and_then (call (Sleep 1) (sleep w k)) (sleep_loop w turns' (S k))
  end.

(** Truth value of an optional integer: [None] and 0 are false. *)
Definition truthy_int (n : option Z) : bool :=
  match n with
  | Some n => negb (n =? 0)%Z
  | None => false
  end.

Definition run (w : world) (turns : nat) (scan_time : option Z) : proc :=
  and_then (call Create (create w))
    (and_then (print_line "🔎 Iniciando scanner BLE… (Ctrl+C para parar)")
       (and_then (call Start (start w))
          (finally
             (except_keyboard_interrupt
                (if truthy_int scan_time then
                   call (Sleep (default 0%Z scan_time)) (sleep w 0)
                 else sleep_loop w turns 0)
                (print_line "
⛔ Interrompido pelo usuário."))
             (and_then (call Stop (stop w))
                (print_line "✅ Scanner finalizado."))))).

(** The parsed command line. *)
Record args : Type := {
  args_macs : option string;
  args_uuid128 : option string;
  args_time : option Z
}.

(** How a script ends: it exits, an exception of a loader or of the scan
    goes uncaught, or it is still scanning. *)
Inductive ending : Type :=
| Exited
| LoadFailed (e : exn)
| ScanFailed (e : raised)
| StillScanning.

(** [task.uncancel()]: one request to cancel less, and how many are left. *)
Definition uncancel (w : world) : nat := pred (cancel_requests w).

(** [asyncio.run(coro)], as the script leaves it when the coroutine ends
    with status [s] (the runner of Python 3.11 and later):
    [try: return loop.run_until_complete(task)]
    [except CancelledError:]
    [    if interrupt_count > 0 and task.uncancel() == 0:]
    [        raise KeyboardInterrupt()]
    [    raise]
    A cancellation that Ctrl+C asked for leaves the script as
    [KeyboardInterrupt]; every other exception of the coroutine leaves it
    as it is. *)
Definition asyncio_run (w : world) (s : status) : ending :=
  match s with
  | Returned => Exited
  | Raising CancelledError =>
      if (0 <? interrupt_count w)%nat && (uncancel w =? 0)%nat
      then ScanFailed KeyboardInterrupt
      else ScanFailed CancelledError
  | Raising e => ScanFailed e
  | Scanning => StillScanning
  end.

(** [if path: flt = load(path)], with [flt] being [None] before. *)
Definition load_if_given (load : string -> io (option (gset string)))
    (path : option string) : io (option (gset string)) :=
  match path with
  | Some path => if Py.truthy_str path then load path else mret None
  | None => mret None
  end.

(** The body of [ble_scan_manu.py] under [if __name__ == "__main__"],
    after the command line is parsed: the calls made, the value of
    [mac_filter] at the end, and how the script ends. *)
Definition manu_main (fs : Py.filesystem) (w : world) (turns : nat) (a : args)
    : list event * option (gset string) * ending :=
  match load_if_given (Manu.load_mac_list fs) (args_macs a) with
  | (out, Done mac_filter) =>
      let '(t, s) := run w turns (args_time a) in
      (map Print out ++ t, mac_filter, asyncio_run w s)
  | (out, Raised e) => (map Print out, None, LoadFailed e)
  end.

(** The same for [ble_scan_uuid128.py], with [mac_filter] and
    [uuid128_filter]. *)
Definition uuid128_main (fs : Py.filesystem) (w : world) (turns : nat) (a : args)
    : list event * (option (gset string) * option (gset string)) * ending :=
  match load_if_given (Uuid128.load_mac_list fs) (args_macs a) with
  | (out1, Done mac_filter) =>
      match load_if_given (Uuid128.load_uuid128_list fs) (args_uuid128 a) with
      | (out2, Done uuid128_filter) =>
          let '(t, s) := run w turns (args_time a) in
          (map Print (out1 ++ out2) ++ t, (mac_filter, uuid128_filter),
           asyncio_run w s)
      | (out2, Raised e) =>
          (map Print (out1 ++ out2), (mac_filter, None), LoadFailed e)
      end
  | (out1, Raised e) => (map Print out1, (None, None), LoadFailed e)
  end.

(** The scanner calls of a trace, without what is printed. *)
Definition is_print (ev : event) : bool :=
  match ev with Print _ => true | _ => false end.

Definition is_stop (ev : event) : bool :=
  match ev with Stop => true | _ => false end.

Definition is_sleep (ev : event) : bool :=
  match ev with Sleep _ => true | _ => false end.

Fixpoint count (p : event -> bool) (t : list event) : nat :=
  match t with
  | [] => 0
  | ev :: t' => (if p ev then 1 else 0) + count p t'
  end.

(** A world in which no call raises and Ctrl+C is not pressed. *)
Definition quiet : world :=
  {| create := None; start := None; sleep := fun _ => None; stop := None;
     interrupt_count := 0; cancel_requests := 0 |}.

(** A world in which the [k]-th sleep raises [e] and nothing else does,
    [asyncio.run] having handled no Ctrl+C. *)
Definition interrupted_at (k : nat) (e : raised) : world :=
  {| create := None; start := None;
     sleep := fun i => if (i =? k)%nat then Some e else None;
     stop := None;
     interrupt_count := 0; cancel_requests := 0 |}.


End Driver.

(** ** The vocabulary of the specification

    Definitions written from the words of the specification, to compare
    with what the scripts compute. *)

Module Spec.

(** The signed little-endian 16-bit integer formed from two bytes. *)
Definition s16_le (lo hi : byte) : Z :=
  let u := (Py.byte_val lo + 256 * Py.byte_val hi)%Z in
  if (u <? 32768)%Z then u else (u - 65536)%Z.

(** [t] hundredths written as a decimal number with two decimals. *)
Definition centi_text (t : Z) : string :=
  (if (t <? 0)%Z then "-" else "") +:+ Py.str_of_int (Z.abs t / 100) +:+ "."
    +:+ Py.rjust "0" 2 (Py.str_of_int (Z.abs t mod 100)).

Definition upper_hex_digit (d : Z) : ascii :=
  nth (Z.to_nat d) (list_ascii_of_string "0123456789ABCDEF") "?"%char.

(** A byte value as two upper-case hexadecimal digits. *)
Definition two_digit_upper_hex (n : Z) : string :=
  String (upper_hex_digit (n / 16)) (String (upper_hex_digit (n mod 16)) "").

(** The value of an upper-case hexadecimal digit. *)
Definition upper_hex_value (c : ascii) : option Z :=
  let n := Z.of_nat (nat_of_ascii c) in
  if ((48 <=? n) && (n <=? 57))%Z then Some (n - 48)%Z
  else if ((65 <=? n) && (n <=? 70))%Z then Some (n - 55)%Z
  else None.

(** The three states of an allow-list, and when an identifier passes. *)
Inductive allow_list : Type :=
  | Absent
  | Present (entries : gset string).

Definition passes (a : allow_list) (x : string) : bool :=
  match a with
  | Absent => true
  | Present entries => bool_decide (x ∈ entries)
  end.

Definition of_filter (flt : option (gset string)) : allow_list :=
  match flt with
  | None => Absent
  | Some s => Present s
  end.

End Spec.

(** ** The layout of a reported line (the reporter of the specification) *)

Module Report.

Definition nome (device : BLEDevice) : string :=
  Py.str_or (name device) "Desconhecido".

Definition temperature_field (t : Z) : string :=
  "Temp " +:+ Py.rjust " " 6 (Spec.centi_text t) +:+ " °C".

Definition unknown_field (sensor_type : Z) : string :=
  "Sensor desconhecido (tipo " +:+ Spec.two_digit_upper_hex sensor_type +:+ ")".

Definition manu_line (device : BLEDevice) (ad : AdvertisementData)
    (field : string) : string :=
  address device +:+ "  RSSI " +:+ Py.format_r4 (rssi ad) +:+ " dBm  "
    +:+ field +:+ "  Nome: " +:+ nome device.

Definition uuid_line (device : BLEDevice) (ad : AdvertisementData)
    (field uuid_str : string) : string :=
  address device +:+ "  RSSI " +:+ Py.format_r4 (rssi ad) +:+ " dBm  "
    +:+ field +:+ "  UUID: " +:+ uuid_str +:+ "  Nome: " +:+ nome device.

(** The event [ad] with its service data replaced by [entries]. *)
Definition with_service_data (ad : AdvertisementData)
    (entries : list (string * Py.bytes)) : AdvertisementData :=
  {| manufacturer_data := manufacturer_data ad;
     service_data := Some entries;
     rssi := rssi ad |}.

End Report.

(** Runs the monadic glue of a computation without unfolding the
    built-ins it calls. *)
Ltac io_simpl :=
  unfold mbind, mret, io_bind, io_ret, print, raise, printed, result;
  cbv beta iota zeta; cbn [app fst snd].

(** ** Exhaustive checks over a range of integers *)

(** [p] holds on the [n] integers from [t] on. *)
Fixpoint holds_from (p : Z -> bool) (t : Z) (n : nat) : bool :=
  match n with
  | O => true
  | S n' => p t && holds_from p (t + 1) n'
  end.

(** The quotient of [t] by 100.0 has the sign of [t] and rounds to
    [|t|] hundredths. *)
Definition temp_hundredths_ok (t : Z) : bool :=
  match Prim2SF (Py.truediv_100 t) with
  | S754_zero neg => negb neg && (t =? 0)%Z
  | S754_finite neg m e =>
      Bool.eqb neg (t <? 0)%Z && (Py.round_hundredths m e =? Z.abs t)%Z
  | _ => false
  end.

Definition hex_text_ok (n : Z) : bool :=
  String.eqb (Py.format_02X n) (Spec.two_digit_upper_hex n).

Definition hex_digits_ok (n : Z) : bool :=
  match Spec.upper_hex_value (Spec.upper_hex_digit (n / 16)),
        Spec.upper_hex_value (Spec.upper_hex_digit (n mod 16)) with
  | Some hi, Some lo => (hi =? n / 16)%Z && (lo =? n mod 16)%Z
  | _, _ => false
  end.

(** ** Reading a printed temperature back

    A reader for the text of a temperature field, written for the
    comparison with what the scripts print: optional spaces, an optional
    minus sign, digits, a point and two digits. *)

Module Reading.

Definition digit_value (c : ascii) : option Z :=
  let n := Z.of_nat (nat_of_ascii c) in
  if ((48 <=? n) && (n <=? 57))%Z then Some (n - 48)%Z else None.

(** The number the leading digits of [s] spell, after the digits that
    gave [acc], and what follows them. *)
Fixpoint read_number (s : string) (acc : option Z) : option (Z * string) :=
  match s with
  | EmptyString => option_map (fun n => (n, EmptyString)) acc
  | String c s' =>
      match digit_value c with
      | Some d => read_number s' (Some (10 * default 0%Z acc + d)%Z)
      | None => option_map (fun n => (n, s)) acc
      end
  end.

(** The hundredths a text such as [ -0.05] or [327.67] stands for. *)
Definition read_centi (s : string) : option Z :=
  let s := Py.lstrip s in
  let '(neg, s) :=
    match s with
    | String "-" s' => (true, s')
    | _ => (false, s)
    end in
  match read_number s None with
  | Some (units, String "." (String d1 (String d2 EmptyString))) =>
      match digit_value d1, digit_value d2 with
      | Some a, Some b =>
          let h := (100 * units + 10 * a + b)%Z in
          Some (if neg then (- h)%Z else h)
      | _, _ => None
      end
  | _ => None
  end.

(** The text of [t] hundredths reads back as [t] and is six characters
    wide, seven below -99.99. *)
Definition centi_text_ok (t : Z) : bool :=
  let text := Py.rjust " " 6 (Spec.centi_text t) in
  match read_centi text with
  | Some t' => (t' =? t)%Z
  | None => false
  end
  && (String.length text =? (if (t <? -9999)%Z then 7 else 6))%nat.

(** [s] is empty or ends with a line feed. *)
Fixpoint ends_lines (s : string) : bool :=
  match s with
  | EmptyString => true
  | String c s' =>
      match s' with
      | EmptyString => Ascii.eqb c Py.LF
      | _ => ends_lines s'
      end
  end.

(** The lines of a file that are not blank. *)
Definition non_blank (lines : list string) : list string :=
  List.filter (fun line => Py.truthy_str (Py.strip line)) lines.

(** A signal strength of up to three digits with a sign, or four without,
    fills four columns. *)
Definition rssi_text_ok (n : Z) : bool :=
  (String.length (Py.format_r4 n) =? 4)%nat.

(** [s.isascii()]: every character of [s] is below 128.  On such texts
    [Py.isspace], [Py.upper_char] and [Py.lower_char] are what [str.strip],
    [str.upper] and [str.lower] use. *)
Definition ascii_char (c : ascii) : bool := (nat_of_ascii c <? 128)%nat.

Fixpoint is_ascii (s : string) : bool :=
  match s with
  | EmptyString => true
  | String c s' => ascii_char c && is_ascii s'
  end.

End Reading.

(** ** Sample devices, events and files *)

Definition sample_device : BLEDevice :=
  {| address := "AA:BB:CC:DD:EE:FF"; name := None |}.

Definition listed_uuid : string := "0000aaaa-0000-1000-8000-00805f9b34fb".
Definition unlisted_uuid : string := "0000bbbb-0000-1000-8000-00805f9b34fb".

Definition sample_event : AdvertisementData :=
  {| manufacturer_data := {[ 65535%Z := [x01; x10; x0e] ]};
     service_data :=
       Some [("0000AAAA-0000-1000-8000-00805F9B34FB", [x01; x64; x00])];
     rssi := (-50)%Z |}.

Definition temperature_event : AdvertisementData :=
  {| manufacturer_data := {[ 65535%Z := [x01; xdc; x09] ]};
     service_data :=
       Some [("0000AAAA-0000-1000-8000-00805F9B34FB", [x01; xdc; x09])];
     rssi := (-50)%Z |}.

(** The temperature payload as manufacturer data only, and as service
    data only. *)
Definition manufacturer_only_event : AdvertisementData :=
  {| manufacturer_data := {[ 65535%Z := [x01; xdc; x09] ]};
     service_data := None;
     rssi := (-50)%Z |}.

Definition service_only_event : AdvertisementData :=
  {| manufacturer_data := ∅;
     service_data :=
       Some [("0000AAAA-0000-1000-8000-00805F9B34FB", [x01; xdc; x09])];
     rssi := (-50)%Z |}.

(** Two service-data entries whose keys are written in upper case and in
    mixed case. *)
Definition two_case_event : AdvertisementData :=
  {| manufacturer_data := ∅;
     service_data :=
       Some [("0000AAAA-0000-1000-8000-00805F9B34FB", [x01; x64; x00]);
             ("0000bbbb-0000-1000-8000-00805F9B34FB", [x01; xdc; x09])];
     rssi := (-50)%Z |}.

Definition long_payload_event : AdvertisementData :=
  {| manufacturer_data := {[ 65535%Z := [x01; xdc; x09; xff; x00; x7f] ]};
     service_data := Some [(listed_uuid, [x01; xdc; x09; xff; x00; x7f])];
     rssi := (-50)%Z |}.

Definition short_temperature_event : AdvertisementData :=
  {| manufacturer_data := ∅;
     service_data := Some [("0000aaaa-0000-1000-8000-00805f9b34fb", [x01])];
     rssi := (-50)%Z |}.

Definition short_manufacturer_event : AdvertisementData :=
  {| manufacturer_data := {[ 65535%Z := [x01; x10] ]};
     service_data := None;
     rssi := (-50)%Z |}.

Definition reserved_event : AdvertisementData :=
  {| manufacturer_data := {[ 65535%Z := [x00; x10; x0e] ]};
     service_data := Some [(listed_uuid, [x00; x10; x0e])];
     rssi := (-50)%Z |}.

Definition unknown_event : AdvertisementData :=
  {| manufacturer_data := {[ 65535%Z := [x0a; x10; x0e] ]};
     service_data := Some [(listed_uuid, [x0a])];
     rssi := (-50)%Z |}.

Definition empty_payload_event : AdvertisementData :=
  {| manufacturer_data := {[ 65535%Z := [] ]};
     service_data := Some [(listed_uuid, [])];
     rssi := (-50)%Z |}.

(** Two entries; the listed one holds a payload of the reserved type 0. *)
Definition reserved_listed_event : AdvertisementData :=
  {| manufacturer_data := ∅;
     service_data :=
       Some [(listed_uuid, [x00; x64; x00]); (unlisted_uuid, [x01; x64; x00])];
     rssi := (-50)%Z |}.

(** Two entries; the listed one holds 100 hundredths of a degree. *)
Definition two_entry_event : AdvertisementData :=
  {| manufacturer_data := ∅;
     service_data :=
       Some [(unlisted_uuid, [x01; xdc; x09]); (listed_uuid, [x01; x64; x00])];
     rssi := (-50)%Z |}.

(** A file system holding one empty file, [macs.txt]. *)
Definition empty_list_fs : Py.filesystem := fun path =>
  if String.eqb path "macs.txt" then Py.Readable ""
  else Py.Unreadable FileNotFoundError.

(** A file system holding [macs.txt] with one address written twice, in
    two cases, around a blank line. *)
Definition listed_fs : Py.filesystem := fun path =>
  if String.eqb path "macs.txt" then
    Py.Readable " aa:bb:cc:dd:ee:ff
	
AA:BB:CC:DD:EE:FF
"
  else Py.Unreadable FileNotFoundError.

(** A file system holding two lists and the file made of the first
    followed by the second. *)
Definition joined_fs : Py.filesystem := fun path =>
  if String.eqb path "a.txt" then Py.Readable "aa:aa:aa:aa:aa:aa
"
  else if String.eqb path "b.txt" then Py.Readable "bb:bb:bb:bb:bb:bb"
  else if String.eqb path "ab.txt" then
    Py.Readable "aa:aa:aa:aa:aa:aa
bb:bb:bb:bb:bb:bb"
  else Py.Unreadable FileNotFoundError.

(** ** Facts about the built-ins *)

Lemma holds_from_spec p n : forall t x,
  holds_from p t n = true -> (t <= x < t + Z.of_nat n)%Z -> p x = true.
Proof.
  induction n as [|n IH]; intros t x H Hx; [lia|].
  simpl in H. apply andb_true_iff in H as [H0 H1].
  destruct (decide (x = t)) as [->|Hne]; [done|].
  apply (IH (t + 1)%Z); [done | lia].
Qed.

Lemma byte_val_range (b : byte) : (0 <= Py.byte_val b < 256)%Z.
Proof.
  unfold Py.byte_val. pose proof (Byte.to_N_bounded b). lia.
Qed.

Lemma byte_val_inj (b c : byte) : Py.byte_val b = Py.byte_val c -> b = c.
Proof.
  unfold Py.byte_val. intros H. apply (inj Some).
  rewrite <- (Byte.of_to_N b), <- (Byte.of_to_N c). f_equal. lia.
Qed.

Lemma lor_shiftl_8 (a b : Z) :
  (0 <= a < 256)%Z -> Z.lor a (Z.shiftl b 8) = (a + 256 * b)%Z.
Proof.
  intros Ha. rewrite Z.shiftl_mul_pow2 by lia.
  change (2 ^ 8)%Z with 256%Z. rewrite (Z.mul_comm b).
  symmetry. apply Z.add_nocarry_lor.
  apply Z.bits_inj'. intros n Hn.
  rewrite Z.land_spec, Z.bits_0.
  destruct (decide (n < 8)%Z) as [Hlt|Hge].
  - replace (256 * b)%Z with (Z.shiftl b 8)
      by (rewrite Z.shiftl_mul_pow2 by lia; change (2 ^ 8)%Z with 256%Z; lia).
    rewrite (Z.shiftl_spec_low b 8 n) by lia. apply andb_false_r.
  - destruct (decide (a = 0%Z)) as [->|Hnz]; [by rewrite Z.bits_0|].
    rewrite (Z.bits_above_log2 a n); [done | lia |].
    assert (Z.log2 a < 8)%Z; [|lia].
    apply Z.log2_lt_pow2; [lia|]. change (2 ^ 8)%Z with 256%Z. lia.
Qed.

Lemma testbit_15 (u : Z) :
  (0 <= u < 65536)%Z -> Z.testbit u 15 = negb (u <? 32768)%Z.
Proof.
  intros Hu. destruct (Z.ltb_spec u 32768) as [Hlt|Hge]; cbn [negb].
  - destruct (decide (u = 0%Z)) as [->|Hnz]; [done|].
    apply Z.bits_above_log2; [lia|].
    apply Z.log2_lt_pow2; [lia|]. change (2 ^ 15)%Z with 32768%Z. lia.
  - apply Z.testbit_true; [lia|]. change (2 ^ 15)%Z with 32768%Z.
    assert (u `div` 32768 = 1)%Z as ->; [|done].
    symmetry. apply (Z.div_unique u 32768 1 (u - 32768)); lia.
Qed.

(** Unpacking two bytes gives the signed little-endian 16-bit integer. *)
Lemma unpack_le_h_pair (lo hi : byte) :
  Py.unpack_le_h (Some [lo; hi]) = mret (Spec.s16_le lo hi).
Proof.
  unfold Py.unpack_le_h, Spec.s16_le.
  pose proof (byte_val_range lo) as Hlo. pose proof (byte_val_range hi) as Hhi.
  rewrite lor_shiftl_8 by done.
  rewrite testbit_15 by lia.
  by destruct (_ <? _)%Z.
Qed.

(** [Spec.s16_le] is the two's complement reading of the 16 bits. *)
Lemma s16_le_twos_complement (lo hi : byte) :
  (-32768 <= Spec.s16_le lo hi < 32768)%Z
  /\ (Spec.s16_le lo hi mod 65536 = Py.byte_val lo + 256 * Py.byte_val hi)%Z.
Proof.
  unfold Spec.s16_le.
  pose proof (byte_val_range lo) as Hlo. pose proof (byte_val_range hi) as Hhi.
  destruct (Z.ltb_spec (Py.byte_val lo + 256 * Py.byte_val hi) 32768).
  - split; [lia|]. apply Z.mod_small. lia.
  - split; [lia|]. symmetry.
    apply (Z.mod_unique _ 65536 (-1)); lia.
Qed.

Lemma temp_hundredths_ok_int16 :
  holds_from temp_hundredths_ok (-32768) (Z.to_nat 65536) = true.
Proof. vm_cast_no_check (eq_refl true). Qed.

(** The quotient by 100.0, printed with [6.2f], shows exactly the
    hundredths it was computed from. *)
Lemma format_6_2f_centi (t : Z) :
  (-32768 <= t < 32768)%Z ->
  Py.format_6_2f (Py.truediv_100 t) = Py.rjust " " 6 (Spec.centi_text t).
Proof.
  intros Ht.
  assert (temp_hundredths_ok t = true) as H.
  { apply (holds_from_spec temp_hundredths_ok _ _ _ temp_hundredths_ok_int16).
    lia. }
  unfold temp_hundredths_ok in H.
  unfold Py.format_6_2f, Py.format_2f, Spec.centi_text. f_equal.
  destruct (Prim2SF (Py.truediv_100 t)) as [neg| | |neg m e]; try done.
  - apply andb_true_iff in H as [Hneg Ht0].
    apply Z.eqb_eq in Ht0 as ->. by destruct neg.
  - apply andb_true_iff in H as [Hneg Hh].
    apply Bool.eqb_prop in Hneg as ->. by apply Z.eqb_eq in Hh as ->.
Qed.

Lemma hex_text_ok_byte : holds_from hex_text_ok 0 (Z.to_nat 256) = true.
Proof. vm_compute. reflexivity. Qed.

Lemma hex_digits_ok_byte : holds_from hex_digits_ok 0 (Z.to_nat 256) = true.
Proof. vm_compute. reflexivity. Qed.

Lemma format_02X_byte (b : byte) :
  Py.format_02X (Py.byte_val b) = Spec.two_digit_upper_hex (Py.byte_val b).
Proof.
  apply String.eqb_eq.
  apply (holds_from_spec hex_text_ok _ _ _ hex_text_ok_byte).
  pose proof (byte_val_range b). lia.
Qed.

(** Membership in a set comprehension. *)
Lemma elem_of_set_comprehension f p xs x :
  x ∈ Py.set_comprehension f p xs
  <-> exists line, line ∈ xs /\ p line = true /\ x = f line.
Proof.
  unfold Py.set_comprehension.
  assert (forall acc : gset string,
    x ∈ foldl (fun acc x => if p x then {[ f x ]} ∪ acc else acc) acc xs
    <-> x ∈ acc \/ exists line, line ∈ xs /\ p line = true /\ x = f line) as H.
  { induction xs as [|y ys IH]; intros acc; simpl.
    - split; [by left|]. intros [H|(l & Hl & _)]; [done|]. by apply elem_of_nil in Hl.
    - rewrite IH. split.
      + intros [H|(l & Hl & Hp & ->)].
        * destruct (p y) eqn:Hy; [|by left].
          apply elem_of_union in H as [H|H]; [|by left].
          apply elem_of_singleton in H as ->. right. exists y.
          split; [apply elem_of_cons; by left | done].
        * right. exists l. split; [apply elem_of_cons; by right | done].
      + intros [H|(l & Hl & Hp & ->)].
        * left. destruct (p y); [apply elem_of_union; by right | done].
        * apply elem_of_cons in Hl as [->|Hl].
          -- left. rewrite Hp. apply elem_of_union. left. by apply elem_of_singleton.
          -- right. by exists l. }
  rewrite H. split; [|by right]. intros [Hx|Hx]; [|done].
  by apply not_elem_of_empty in Hx.
Qed.

Lemma string_app_assoc (a b c : string) : (a +:+ b) +:+ c = a +:+ (b +:+ c).
Proof.
  induction a as [|x a IH]; [done|].
  change (String x ((a +:+ b) +:+ c) = String x (a +:+ (b +:+ c))).
  by rewrite IH.
Qed.

(** ** The manufacturer-data script, case by case *)

Section manu_cases.
Context (mac_filter : option (gset string)).
Context (device : BLEDevice) (ad : AdvertisementData).

Lemma manu_parse_absent :
  manufacturer_data ad !! 65535%Z = None ->
  Manu.parse_sensor_type_and_value ad = (None, None).
Proof. intros H. unfold Manu.parse_sensor_type_and_value. by rewrite H. Qed.

Lemma manu_parse_short payload :
  manufacturer_data ad !! 65535%Z = Some payload ->
  length payload < 3 ->
  Manu.parse_sensor_type_and_value ad = (None, None).
Proof.
  intros H Hlen. unfold Manu.parse_sensor_type_and_value. rewrite H.
  destruct payload as [|b0 rest]; [done|].
  by destruct (Nat.ltb_spec (length (b0 :: rest)) 3); [|lia].
Qed.

Lemma manu_parse_long b0 b1 b2 rest :
  manufacturer_data ad !! 65535%Z = Some (b0 :: b1 :: b2 :: rest) ->
  Manu.parse_sensor_type_and_value ad = (Some (Py.byte_val b0), Some [b1; b2]).
Proof.
  intros H. unfold Manu.parse_sensor_type_and_value. by rewrite H.
Qed.

Lemma manu_callback_rejected :
  Manu.rejected mac_filter device = true ->
  Manu.callback mac_filter device ad = ([], Done tt).
Proof. intros H. unfold Manu.callback. by rewrite H. Qed.

Lemma manu_callback_no_reading :
  Manu.parse_sensor_type_and_value ad = (None, None) ->
  Manu.callback mac_filter device ad = ([], Done tt).
Proof.
  intros H. unfold Manu.callback. rewrite H. by destruct (Manu.rejected _ _).
Qed.

Lemma manu_callback_temperature b1 b2 rest :
  Manu.rejected mac_filter device = false ->
  manufacturer_data ad !! 65535%Z = Some (x01 :: b1 :: b2 :: rest) ->
  Manu.callback mac_filter device ad
  = ([Report.manu_line device ad
        (Report.temperature_field (Spec.s16_le b1 b2))], Done tt).
Proof.
  intros Hrej H. unfold Manu.callback.
  rewrite Hrej, (manu_parse_long _ _ _ _ H).
  change (Py.byte_val x01 =? 1)%Z with true. cbv iota.
  rewrite unpack_le_h_pair. io_simpl.
  rewrite format_6_2f_centi
    by (pose proof (s16_le_twos_complement b1 b2); lia).
  unfold Report.manu_line, Report.temperature_field, Report.nome.
  by rewrite !string_app_assoc.
Qed.

Lemma manu_callback_reserved b1 b2 rest :
  manufacturer_data ad !! 65535%Z = Some (x00 :: b1 :: b2 :: rest) ->
  Manu.callback mac_filter device ad = ([], Done tt).
Proof.
  intros H. unfold Manu.callback.
  rewrite (manu_parse_long _ _ _ _ H).
  by destruct (Manu.rejected _ _).
Qed.

Lemma manu_callback_unknown b0 b1 b2 rest :
  Manu.rejected mac_filter device = false ->
  manufacturer_data ad !! 65535%Z = Some (b0 :: b1 :: b2 :: rest) ->
  Py.byte_val b0 <> 0%Z -> Py.byte_val b0 <> 1%Z ->
  Manu.callback mac_filter device ad
  = ([Report.manu_line device ad (Report.unknown_field (Py.byte_val b0))],
     Done tt).
Proof.
  intros Hrej H H0 H1. unfold Manu.callback.
  rewrite Hrej, (manu_parse_long _ _ _ _ H).
  destruct (Z.eqb_spec (Py.byte_val b0) 1) as [|_]; [done|].
  destruct (Z.eqb_spec (Py.byte_val b0) 0) as [|_]; [done|].
  rewrite format_02X_byte.
  unfold Report.manu_line, Report.unknown_field, Report.nome.
  io_simpl. by rewrite !string_app_assoc.
Qed.

End manu_cases.

(** ** The service-data script, case by case *)

Lemma for_each_done {A} (body : A -> io unit) (xs : list A) :
  (forall x, result (body x) = Done tt) ->
  Uuid128.for_each xs body = (flat_map (fun x => printed (body x)) xs, Done tt).
Proof.
  intros Hbody. induction xs as [|x xs IH]; [done|].
  cbn [Uuid128.for_each flat_map]. rewrite IH.
  specialize (Hbody x). destruct (body x) as [o r].
  unfold result, printed in *. cbn [fst snd] in *. subst r. by io_simpl.
Qed.

Section uuid128_cases.
Context (uuid128_filter : option (gset string)).
Context (device : BLEDevice) (ad : AdvertisementData).

Lemma uuid_parse_long b0 b1 b2 rest :
  Uuid128.parse_service_data (Some (b0 :: b1 :: b2 :: rest))
  = (Some (Py.byte_val b0), Some [b1; b2]).
Proof. done. Qed.

Lemma uuid_parse_short b0 rest :
  length rest < 2 ->
  Uuid128.parse_service_data (Some (b0 :: rest)) = (Some (Py.byte_val b0), None).
Proof.
  intros H. destruct rest as [|b1 [|b2 rest]]; [done | done |].
  simpl in H. lia.
Qed.

Lemma uuid_entry_filtered uuid_str payload :
  Uuid128.filtered_out uuid128_filter uuid_str = true ->
  Uuid128.callback_entry uuid128_filter device ad (uuid_str, payload)
  = ([], Done tt).
Proof. intros H. unfold Uuid128.callback_entry. by rewrite H. Qed.

Lemma uuid_entry_empty uuid_str :
  Uuid128.callback_entry uuid128_filter device ad (uuid_str, []) = ([], Done tt).
Proof.
  unfold Uuid128.callback_entry. by destruct (Uuid128.filtered_out _ _).
Qed.

Lemma uuid_entry_reserved uuid_str rest :
  Uuid128.callback_entry uuid128_filter device ad (uuid_str, x00 :: rest)
  = ([], Done tt).
Proof.
  unfold Uuid128.callback_entry. destruct (Uuid128.filtered_out _ _); [done|].
  destruct (Nat.lt_ge_cases (length rest) 2) as [Hlt|Hge].
  - by rewrite uuid_parse_short.
  - destruct rest as [|b1 [|b2 rest]]; simpl in Hge; [lia | lia | done].
Qed.

Lemma uuid_entry_temperature uuid_str b1 b2 rest :
  Uuid128.filtered_out uuid128_filter uuid_str = false ->
  Uuid128.callback_entry uuid128_filter device ad
    (uuid_str, x01 :: b1 :: b2 :: rest)
  = ([Report.uuid_line device ad
        (Report.temperature_field (Spec.s16_le b1 b2)) uuid_str], Done tt).
Proof.
  intros Hflt. unfold Uuid128.callback_entry.
  rewrite Hflt, uuid_parse_long.
  change (Py.byte_val x01 =? 1)%Z with true.
  rewrite bool_decide_eq_true_2 by done. cbv iota. cbn [andb].
  rewrite unpack_le_h_pair. io_simpl.
  rewrite format_6_2f_centi
    by (pose proof (s16_le_twos_complement b1 b2); lia).
  unfold Report.uuid_line, Report.temperature_field, Report.nome.
  by rewrite !string_app_assoc.
Qed.

Lemma uuid_entry_unknown uuid_str b0 rest :
  Uuid128.filtered_out uuid128_filter uuid_str = false ->
  Py.byte_val b0 <> 0%Z -> Py.byte_val b0 <> 1%Z ->
  Uuid128.callback_entry uuid128_filter device ad (uuid_str, b0 :: rest)
  = ([Report.uuid_line device ad
        (Report.unknown_field (Py.byte_val b0)) uuid_str], Done tt).
Proof.
  intros Hflt H0 H1. unfold Uuid128.callback_entry. rewrite Hflt.
  assert (exists vb, Uuid128.parse_service_data (Some (b0 :: rest))
                     = (Some (Py.byte_val b0), vb)) as [vb ->].
  { destruct rest as [|b1 [|b2 rest]]; by eexists. }
  destruct (Z.eqb_spec (Py.byte_val b0) 1) as [|_]; [done|].
  destruct (Z.eqb_spec (Py.byte_val b0) 0) as [|_]; [done|].
  cbn [andb negb]. rewrite format_02X_byte.
  unfold Report.uuid_line, Report.unknown_field, Report.nome.
  io_simpl. by rewrite !string_app_assoc.
Qed.

(** A temperature entry too short to hold a value takes the branch of
    the unknown sensors. *)
Lemma uuid_entry_short_temperature uuid_str rest :
  Uuid128.filtered_out uuid128_filter uuid_str = false ->
  length rest < 2 ->
  Uuid128.callback_entry uuid128_filter device ad (uuid_str, x01 :: rest)
  = ([Report.uuid_line device ad (Report.unknown_field 1) uuid_str], Done tt).
Proof.
  intros Hflt Hlen. unfold Uuid128.callback_entry.
  rewrite Hflt, uuid_parse_short by done.
  change (Py.byte_val x01 =? 1)%Z with true.
  rewrite bool_decide_eq_false_2 by (intros H; by apply H).
  cbn [andb negb].
  change (Py.byte_val x01 =? 0)%Z with false. cbv iota. cbn [negb].
  change (Py.byte_val x01) with 1%Z.
  change (Py.format_02X 1) with (Spec.two_digit_upper_hex 1).
  unfold Report.uuid_line, Report.unknown_field, Report.nome.
  io_simpl. by rewrite !string_app_assoc.
Qed.

Lemma uuid_entry_done entry :
  result (Uuid128.callback_entry uuid128_filter device ad entry) = Done tt.
Proof.
  destruct entry as [uuid_str payload].
  destruct (Uuid128.filtered_out uuid128_filter uuid_str) eqn:Hflt.
  { by rewrite uuid_entry_filtered. }
  destruct payload as [|b0 rest]; [by rewrite uuid_entry_empty|].
  destruct (decide (Py.byte_val b0 = 0%Z)) as [H0|H0].
  { unfold Uuid128.callback_entry. rewrite Hflt.
    destruct rest as [|b1 [|b2 rest]]; cbn [Uuid128.parse_service_data];
      rewrite H0; cbv beta iota zeta; cbn; done. }
  destruct (decide (Py.byte_val b0 = 1%Z)) as [H1|H1].
  - assert (b0 = x01) as ->.
    { by apply byte_val_inj. }
    destruct (Nat.lt_ge_cases (length rest) 2) as [Hlt|Hge].
    + by rewrite uuid_entry_short_temperature.
    + destruct rest as [|b1 [|b2 rest]]; simpl in Hge; [lia | lia |].
      by rewrite uuid_entry_temperature.
  - by rewrite uuid_entry_unknown.
Qed.

Lemma uuid_entry_at_most_one entry :
  length (printed (Uuid128.callback_entry uuid128_filter device ad entry)) <= 1.
Proof.
  destruct entry as [uuid_str payload].
  destruct (Uuid128.filtered_out uuid128_filter uuid_str) eqn:Hflt.
  { rewrite uuid_entry_filtered by done. simpl. lia. }
  destruct payload as [|b0 rest]; [rewrite uuid_entry_empty; simpl; lia|].
  destruct (decide (Py.byte_val b0 = 0%Z)) as [H0|H0].
  { assert (b0 = x00) as ->.
    { by apply byte_val_inj. }
    rewrite uuid_entry_reserved. simpl. lia. }
  destruct (decide (Py.byte_val b0 = 1%Z)) as [H1|H1].
  - assert (b0 = x01) as ->.
    { by apply byte_val_inj. }
    destruct (Nat.lt_ge_cases (length rest) 2) as [Hlt|Hge].
    + rewrite uuid_entry_short_temperature by done. simpl. lia.
    + destruct rest as [|b1 [|b2 rest]]; simpl in Hge; [lia | lia |].
      rewrite uuid_entry_temperature by done. simpl. lia.
  - rewrite uuid_entry_unknown by done. simpl. lia.
Qed.

End uuid128_cases.

(** The lines of an event are the lines of its entries, in order. *)
Lemma uuid_callback_lines mac_filter uuid128_filter device ad :
  Uuid128.filtered_out mac_filter (Py.upper (address device)) = false ->
  Uuid128.callback mac_filter uuid128_filter device ad
  = (flat_map
       (fun entry => printed (Uuid128.callback_entry uuid128_filter device ad entry))
       (Uuid128.get_service_data_payload ad), Done tt).
Proof.
  intros Hmac. unfold Uuid128.callback. rewrite Hmac.
  apply for_each_done. intros entry. apply uuid_entry_done.
Qed.

Lemma uuid_callback_rejected mac_filter uuid128_filter device ad :
  Uuid128.filtered_out mac_filter (Py.upper (address device)) = true ->
  Uuid128.callback mac_filter uuid128_filter device ad = ([], Done tt).
Proof. intros Hmac. unfold Uuid128.callback. by rewrite Hmac. Qed.

(** The service data the loop walks over can be taken apart entry by
    entry. *)
Lemma uuid_callback_entries mac_filter uuid128_filter device ad entries :
  service_data ad = Some entries ->
  Uuid128.filtered_out mac_filter (Py.upper (address device)) = false ->
  Uuid128.callback mac_filter uuid128_filter device ad
  = (flat_map
       (fun entry => printed (Uuid128.callback_entry uuid128_filter device ad
                                (Py.lower entry.1, entry.2)))
       entries, Done tt).
Proof.
  intros Hsd Hmac. rewrite uuid_callback_lines by done. f_equal.
  unfold Uuid128.get_service_data_payload. rewrite Hsd.
  change (default [] (Some entries)) with entries. clear Hsd.
  induction entries as [|[u p] entries IH]; [done|].
  cbn [map flat_map fst snd]. by rewrite IH.
Qed.

Lemma uuid_callback_split mac_filter uuid128_filter device ad
    (pre post : list (string * Py.bytes)) uuid_str payload :
  service_data ad = Some (pre ++ (uuid_str, payload) :: post) ->
  Uuid128.filtered_out mac_filter (Py.upper (address device)) = false ->
  Uuid128.callback mac_filter uuid128_filter device ad
  = (printed (Uuid128.callback mac_filter uuid128_filter device
                (Report.with_service_data ad pre))
     ++ printed (Uuid128.callback_entry uuid128_filter device ad
                   (Py.lower uuid_str, payload))
     ++ printed (Uuid128.callback mac_filter uuid128_filter device
                   (Report.with_service_data ad post)), Done tt).
Proof.
  intros Hsd Hmac.
  rewrite (uuid_callback_entries _ _ _ _ _ Hsd Hmac).
  rewrite (uuid_callback_entries _ _ _ (Report.with_service_data ad pre) pre)
    by done.
  rewrite (uuid_callback_entries _ _ _ (Report.with_service_data ad post) post)
    by done.
  unfold printed at 1 3. cbn [fst].
  rewrite flat_map_app. cbn [flat_map fst snd]. done.
Qed.

(** An entry that prints nothing can be left out of the event. *)
Lemma uuid_callback_silent_entry mac_filter uuid128_filter device ad
    (pre post : list (string * Py.bytes)) uuid_str payload :
  service_data ad = Some (pre ++ (uuid_str, payload) :: post) ->
  printed (Uuid128.callback_entry uuid128_filter device ad
             (Py.lower uuid_str, payload)) = [] ->
  Uuid128.callback mac_filter uuid128_filter device ad
  = Uuid128.callback mac_filter uuid128_filter device
      (Report.with_service_data ad (pre ++ post)).
Proof.
  intros Hsd Hsilent.
  destruct (Uuid128.filtered_out mac_filter (Py.upper (address device))) eqn:Hmac.
  { by rewrite !uuid_callback_rejected. }
  rewrite (uuid_callback_entries _ _ _ _ _ Hsd Hmac).
  rewrite (uuid_callback_entries _ _ _ (Report.with_service_data ad (pre ++ post))
             (pre ++ post)) by done.
  rewrite !flat_map_app. cbn [flat_map fst snd]. by rewrite Hsilent.
Qed.

(** ** Allow-lists *)

(** The service-data script keeps the three states of an allow-list
    apart, for addresses and for UUIDs alike. *)
Lemma uuid128_filter_tri_state (flt : option (gset string)) (x : string) :
  Uuid128.filtered_out flt x = negb (Spec.passes (Spec.of_filter flt) x).
Proof.
  destruct flt as [s|]; [|done]. cbn.
  destruct (decide (x ∈ s)).
  - by rewrite bool_decide_eq_false_2, bool_decide_eq_true_2 by auto.
  - by rewrite bool_decide_eq_true_2, bool_decide_eq_false_2 by auto.
Qed.

(** The manufacturer-data script agrees with it on absent and on
    non-empty lists. *)
Lemma manu_filter_absent_or_nonempty (flt : option (gset string)) device :
  flt <> Some ∅ ->
  Manu.rejected flt device
  = negb (Spec.passes (Spec.of_filter flt) (Py.upper (address device))).
Proof.
  intros Hne. destruct flt as [s|]; [|done]. cbn.
  destruct (decide (s = ∅)) as [->|_]; [done|].
  destruct (decide (Py.upper (address device) ∈ s)).
  - by rewrite bool_decide_eq_false_2, bool_decide_eq_true_2 by auto.
  - by rewrite bool_decide_eq_true_2, bool_decide_eq_false_2 by auto.
Qed.

(** With an empty list it rejects nothing, exactly as with no list. *)
Lemma manu_filter_empty device ad :
  Manu.rejected (Some ∅) device = false
  /\ Manu.callback (Some ∅) device ad = Manu.callback None device ad.
Proof. done. Qed.

(** Claim C1: an allow-list that is present but empty must reject every
    address.  The manufacturer-data script loads the empty file as the
    empty set and then lets the event through, printing its reading; the
    service-data script rejects the same event. *)
Theorem manu_empty_mac_list_lets_event_through :
  Manu.configure empty_list_fs (Some "macs.txt")
  = (["✅ Lista de MACs carregada (0 entradas)."], Done (Some ∅))
  /\ Manu.callback (Some ∅) sample_device sample_event
     = (["AA:BB:CC:DD:EE:FF  RSSI  -50 dBm  Temp  36.00 °C  Nome: Desconhecido"],
        Done tt)
  /\ Uuid128.callback (Some ∅) None sample_device sample_event = ([], Done tt).
Proof. repeat split; vm_compute; reflexivity. Qed.

(** ** Short temperature payloads in the service-data script *)

(** Claim C2: a service-data payload of one byte, of type 1, decodes to a
    known type without a value, and the printed line should leave out the
    number only.  The script prints it as an unknown sensor of type 01. *)
Theorem uuid128_short_temperature_shown_as_unknown :
  Uuid128.parse_service_data (Some [x01]) = (Some 1%Z, None)
  /\ Uuid128.callback None None sample_device short_temperature_event
     = (["AA:BB:CC:DD:EE:FF  RSSI  -50 dBm  Sensor desconhecido (tipo 01)  UUID: 0000aaaa-0000-1000-8000-00805f9b34fb  Nome: Desconhecido"],
        Done tt).
Proof. split; vm_compute; reflexivity. Qed.

(** ** Loading an allow-list *)

(** Claim C3, as stated, fails: a path that cannot be opened for another
    reason than a missing file is not turned into the absent state. *)
Lemma load_unopenable_is_not_always_absent :
  ~ (forall (fs : Py.filesystem) (path : string) (e : exn),
       fs path = Py.Unreadable e ->
       exists warning, Manu.load_mac_list fs path = ([warning], Done None)).
Proof.
  intros H.
  destruct (H (fun _ => Py.Unreadable PermissionError) "macs.txt" PermissionError
              eq_refl) as [warning Hw].
  discriminate Hw.
Qed.

(** Claim C3, amended: a missing file gives the absent state and one
    warning line, without an exception; any other failure to open or read
    the file is raised to the caller; a file that is read gives the set
    of its non-blank lines, stripped and upper-cased (addresses) or
    lower-cased (UUIDs). *)
Theorem load_allow_list_outcomes (fs : Py.filesystem) (path : string) :
  match fs path with
  | Py.Unreadable FileNotFoundError =>
      Manu.load_mac_list fs path
      = (["⚠️ Arquivo '" +:+ path +:+ "' não encontrado – sem filtro de MAC."],
         Done None)
      /\ Uuid128.load_uuid128_list fs path
         = (["⚠️ Arquivo '" +:+ path
               +:+ "' não encontrado – sem filtro de UUID128."], Done None)
  | Py.Unreadable e =>
      Manu.load_mac_list fs path = ([], Raised e)
      /\ Uuid128.load_uuid128_list fs path = ([], Raised e)
  | Py.Readable text =>
      exists macs uuids : gset string,
        result (Manu.load_mac_list fs path) = Done (Some macs)
        /\ result (Uuid128.load_uuid128_list fs path) = Done (Some uuids)
        /\ (forall x, x ∈ macs <->
              exists line, line ∈ Py.file_lines text
                /\ Py.strip line <> "" /\ x = Py.upper (Py.strip line))
        /\ (forall x, x ∈ uuids <->
              exists line, line ∈ Py.file_lines text
                /\ Py.strip line <> "" /\ x = Py.lower (Py.strip line))
  end.
Proof.
  unfold Manu.load_mac_list, Uuid128.load_uuid128_list.
  destruct (fs path) as [text|e].
  - eexists _, _. split; [reflexivity|]. split; [reflexivity|].
    assert (forall s, Py.truthy_str s = true <-> s <> "") as Htruthy.
    { intros [|c s]; simpl; split; congruence. }
    split; intros x; rewrite elem_of_set_comprehension;
      split; intros (line & Hin & Hp & ->); exists line;
      (split; [done|]); (split; [|done]); by apply Htruthy.
  - by destruct e.
Qed.

(** The address of [listed_fs] is loaded in upper case. *)
Lemma load_allow_list_outcomes_witness :
  exists macs : gset string,
    result (Manu.load_mac_list listed_fs "macs.txt") = Done (Some macs)
    /\ "AA:BB:CC:DD:EE:FF" ∈ macs
    /\ "aa:bb:cc:dd:ee:ff" ∉ macs.
Proof.
  pose proof (load_allow_list_outcomes listed_fs "macs.txt") as H.
  hnf in H. destruct H as (macs & uuids & Hmacs & _ & Hin & _).
  exists macs. split; [exact Hmacs|]. split.
  - apply Hin. exists " aa:bb:cc:dd:ee:ff
".
    split; [|split].
    + apply list_elem_of_In. vm_compute. left. reflexivity.
    + vm_compute. discriminate.
    + vm_compute. reflexivity.
  - intros Hmem. apply Hin in Hmem as (line & Hline & _ & Heq).
    apply list_elem_of_In in Hline. vm_compute in Hline.
    destruct Hline as [<-|[<-|[<-|[]]]]; vm_compute in Heq; discriminate Heq.
Defined.

(** ** Decoding and displaying a temperature *)

(** Claim C4: for every payload of at least three bytes whose first byte
    is 1, both scripts decode bytes 1 and 2 as a signed little-endian
    16-bit integer [t], and [t / 100.0] written with two decimals is [t]
    hundredths exactly.  An event that carries the payload as manufacturer
    data of company 0xFFFF makes the manufacturer-data script print that
    temperature, unless its address filter rejects the device; an event
    that carries it as a service-data entry makes the service-data script
    print that temperature for the entry, between the lines of the entries
    before and after it, unless a filter rejects the device or the UUID.
    Neither event needs to carry the payload the other way. *)
Theorem temperature_decoded_and_displayed
    (mac_filter uuid128_filter : option (gset string))
    (device : BLEDevice) (ad : AdvertisementData)
    (pre post : list (string * Py.bytes)) (uuid_str : string)
    (payload rest : Py.bytes) (b1 b2 : byte) :
  payload = x01 :: b1 :: b2 :: rest ->
  let t := Spec.s16_le b1 b2 in
  (Uuid128.parse_service_data (Some payload) = (Some 1%Z, Some [b1; b2])
   /\ Py.unpack_le_h (Some [b1; b2]) = ([], Done t)
   /\ (-32768 <= t < 32768)%Z
   /\ (t mod 65536 = Py.byte_val b1 + 256 * Py.byte_val b2)%Z
   /\ Py.format_6_2f (Py.truediv_100 t) = Py.rjust " " 6 (Spec.centi_text t))
  /\ (manufacturer_data ad !! 65535%Z = Some payload ->
      Manu.parse_sensor_type_and_value ad = (Some 1%Z, Some [b1; b2])
      /\ Manu.callback mac_filter device ad
         = (if Manu.rejected mac_filter device then []
            else [Report.manu_line device ad (Report.temperature_field t)],
            Done tt))
  /\ (service_data ad = Some (pre ++ (uuid_str, payload) :: post) ->
      Uuid128.callback mac_filter uuid128_filter device ad
      = (if Uuid128.filtered_out mac_filter (Py.upper (address device)) then []
         else
           printed (Uuid128.callback mac_filter uuid128_filter device
                      (Report.with_service_data ad pre))
           ++ (if Uuid128.filtered_out uuid128_filter (Py.lower uuid_str)
               then []
               else [Report.uuid_line device ad (Report.temperature_field t)
                       (Py.lower uuid_str)])
           ++ printed (Uuid128.callback mac_filter uuid128_filter device
                         (Report.with_service_data ad post)),
         Done tt)).
Proof.
  intros -> t.
  pose proof (s16_le_twos_complement b1 b2) as [Hrange Hmod].
  split; [|split].
  - split; [done|]. split; [apply unpack_le_h_pair|].
    split; [done|]. split; [done|]. by apply format_6_2f_centi.
  - intros Hmd. split; [exact (manu_parse_long ad x01 b1 b2 rest Hmd)|].
    destruct (Manu.rejected mac_filter device) eqn:Hrej.
    + by apply manu_callback_rejected.
    + by apply manu_callback_temperature with rest.
  - intros Hsd.
    destruct (Uuid128.filtered_out mac_filter (Py.upper (address device)))
      eqn:Hmac; [by apply uuid_callback_rejected|].
    rewrite (uuid_callback_split _ _ _ _ _ _ _ _ Hsd Hmac).
    destruct (Uuid128.filtered_out uuid128_filter (Py.lower uuid_str))
      eqn:Huuid.
    + by rewrite (uuid_entry_filtered _ _ _ _ _ Huuid).
    + by rewrite (uuid_entry_temperature _ _ _ _ _ _ _ Huuid).
Qed.

(** The bytes 01 DC 09 hold 2524 and are shown as 25.24: by the
    manufacturer-data script for an event without service data, and by the
    service-data script for an event without manufacturer data. *)
Lemma temperature_decoded_and_displayed_witness :
  Spec.s16_le xdc x09 = 2524%Z
  /\ Manu.callback None sample_device manufacturer_only_event
     = (["AA:BB:CC:DD:EE:FF  RSSI  -50 dBm  Temp  25.24 °C  Nome: Desconhecido"],
        Done tt)
  /\ Uuid128.callback None None sample_device service_only_event
     = (["AA:BB:CC:DD:EE:FF  RSSI  -50 dBm  Temp  25.24 °C  UUID: 0000aaaa-0000-1000-8000-00805f9b34fb  Nome: Desconhecido"],
        Done tt).
Proof.
  split; [reflexivity|]. split.
  - destruct (temperature_decoded_and_displayed None None sample_device
                manufacturer_only_event [] []
                "0000AAAA-0000-1000-8000-00805F9B34FB"
                [x01; xdc; x09] [] xdc x09 eq_refl) as (_ & Hmanu & _).
    destruct (Hmanu eq_refl) as [_ Hline]. exact Hline.
  - destruct (temperature_decoded_and_displayed None None sample_device
                service_only_event [] []
                "0000AAAA-0000-1000-8000-00805F9B34FB"
                [x01; xdc; x09] [] xdc x09 eq_refl) as (_ & _ & Huuid).
    exact (Huuid eq_refl).
Defined.

(** ** Several service-data entries in one event *)

(** Claim C5, as stated, fails: two entries of which exactly one is on the
    list need not give a line, since the payload of the listed one may be
    empty or of the reserved type. *)
Lemma uuid128_listed_entry_may_print_nothing :
  ~ (forall (mac_filter : option (gset string)) (listed : gset string)
       (device : BLEDevice) (ad : AdvertisementData)
       (u1 u2 : string) (p1 p2 : Py.bytes),
       Uuid128.filtered_out mac_filter (Py.upper (address device)) = false ->
       service_data ad = Some [(u1, p1); (u2, p2)] ->
       Py.lower u1 ∈ listed -> Py.lower u2 ∉ listed ->
       exists line,
         printed (Uuid128.callback mac_filter (Some listed) device ad) = [line]).
Proof.
  intros H.
  destruct (H None {[ listed_uuid ]} sample_device reserved_listed_event
              listed_uuid unlisted_uuid [x00; x64; x00] [x01; x64; x00])
    as [line Hline].
  - reflexivity.
  - reflexivity.
  - by apply elem_of_singleton.
  - intros Hin. apply elem_of_singleton in Hin. vm_compute in Hin.
    discriminate Hin.
  - vm_compute in Hline. discriminate Hline.
Qed.

(** Claim C5, amended: after the address filter the lines of an event are
    the lines of its service-data entries, each entry on its own and in
    order; an entry whose UUID is not on an enabled list gives no line;
    and of two entries of which exactly one is on the list, the listed one
    having a non-empty payload whose first byte is not 0, exactly one line
    is printed and it carries the listed UUID. *)
Theorem uuid128_entries_reported_independently
    (mac_filter uuid128_filter : option (gset string))
    (device : BLEDevice) (ad : AdvertisementData)
    (entries : list (string * Py.bytes)) :
  Uuid128.filtered_out mac_filter (Py.upper (address device)) = false ->
  service_data ad = Some entries ->
  Uuid128.callback mac_filter uuid128_filter device ad
  = (flat_map
       (fun entry => printed (Uuid128.callback_entry uuid128_filter device ad
                                (Py.lower entry.1, entry.2)))
       entries, Done tt)
  /\ (forall uuid_str payload,
        Uuid128.filtered_out uuid128_filter (Py.lower uuid_str) = true ->
        Uuid128.callback_entry uuid128_filter device ad
          (Py.lower uuid_str, payload) = ([], Done tt))
  /\ (forall entry,
        length (printed (Uuid128.callback_entry uuid128_filter device ad entry))
        <= 1)
  /\ (forall listed u1 u2 p1 p2 b0 rest,
        uuid128_filter = Some listed ->
        (entries = [(u1, p1); (u2, p2)] \/ entries = [(u2, p2); (u1, p1)]) ->
        Py.lower u1 ∈ listed -> Py.lower u2 ∉ listed ->
        p1 = b0 :: rest -> Py.byte_val b0 <> 0%Z ->
        exists field,
          printed (Uuid128.callback mac_filter uuid128_filter device ad)
          = [Report.uuid_line device ad field (Py.lower u1)]).
Proof.
  intros Hmac Hsd.
  pose proof (uuid_callback_entries mac_filter uuid128_filter device ad entries
                Hsd Hmac) as Hlines.
  split; [done|]. split; [intros; by apply uuid_entry_filtered|].
  split; [apply uuid_entry_at_most_one|].
  intros listed u1 u2 p1 p2 b0 rest -> Hentries Hin Hout -> Hb0.
  rewrite Hlines. unfold printed at 1. cbn [fst].
  assert (Uuid128.filtered_out (Some listed) (Py.lower u1) = false) as Hu1.
  { cbn. by rewrite bool_decide_eq_false_2 by auto. }
  assert (Uuid128.filtered_out (Some listed) (Py.lower u2) = true) as Hu2.
  { cbn. by rewrite bool_decide_eq_true_2. }
  assert (exists field,
    Uuid128.callback_entry (Some listed) device ad (Py.lower u1, b0 :: rest)
    = ([Report.uuid_line device ad field (Py.lower u1)], Done tt))
    as [field Hfield].
  { destruct (decide (Py.byte_val b0 = 1%Z)) as [H1|H1].
    - assert (b0 = x01) as ->.
      { by apply byte_val_inj. }
      destruct (Nat.lt_ge_cases (length rest) 2) as [Hlt|Hge].
      + eexists. by apply uuid_entry_short_temperature.
      + destruct rest as [|b1 [|b2 rest]]; simpl in Hge; [lia | lia |].
        eexists. by apply uuid_entry_temperature.
    - eexists. by apply uuid_entry_unknown. }
  exists field.
  destruct Hentries as [-> | ->]; cbn [flat_map fst snd];
    rewrite Hfield, (uuid_entry_filtered _ _ _ _ _ Hu2); done.
Qed.

(** The listed entry of [two_entry_event] is the only one printed. *)
Lemma uuid128_entries_reported_independently_witness :
  (exists field,
     printed (Uuid128.callback None (Some {[ listed_uuid ]}) sample_device
                two_entry_event)
     = [Report.uuid_line sample_device two_entry_event field listed_uuid])
  /\ printed (Uuid128.callback None (Some {[ listed_uuid ]}) sample_device
                two_entry_event)
     = ["AA:BB:CC:DD:EE:FF  RSSI  -50 dBm  Temp   1.00 °C  UUID: 0000aaaa-0000-1000-8000-00805f9b34fb  Nome: Desconhecido"].
Proof.
  destruct (uuid128_entries_reported_independently None (Some {[ listed_uuid ]})
              sample_device two_entry_event
              [(unlisted_uuid, [x01; xdc; x09]); (listed_uuid, [x01; x64; x00])]
              eq_refl eq_refl) as (Hlines & _ & _ & Htwo).
  split.
  - apply (Htwo {[ listed_uuid ]} listed_uuid unlisted_uuid
             [x01; x64; x00] [x01; xdc; x09] x01 [x64; x00]).
    + reflexivity.
    + right. reflexivity.
    + apply elem_of_singleton. reflexivity.
    + intros Hin. apply elem_of_singleton in Hin. vm_compute in Hin.
      discriminate Hin.
    + reflexivity.
    + vm_compute. discriminate.
  - rewrite Hlines. vm_compute. reflexivity.
Defined.

(** ** One candidate per event in the manufacturer-data script *)

Lemma manu_callback_at_most_one mac_filter device ad :
  length (printed (Manu.callback mac_filter device ad)) <= 1
  /\ result (Manu.callback mac_filter device ad) = Done tt.
Proof.
  destruct (Manu.rejected mac_filter device) eqn:Hrej.
  { rewrite manu_callback_rejected by done. simpl. split; [lia | done]. }
  destruct (manufacturer_data ad !! 65535%Z) as [payload|] eqn:Hmd.
  2: { rewrite manu_callback_no_reading by (by apply manu_parse_absent).
       simpl. split; [lia | done]. }
  destruct (Nat.lt_ge_cases (length payload) 3) as [Hlt|Hge].
  { rewrite manu_callback_no_reading by (by apply manu_parse_short with payload).
    simpl. split; [lia | done]. }
  destruct payload as [|b0 [|b1 [|b2 rest]]]; simpl in Hge; [lia | lia | lia |].
  destruct (decide (Py.byte_val b0 = 0%Z)) as [H0|H0].
  { assert (b0 = x00) as ->.
    { by apply byte_val_inj. }
    rewrite (manu_callback_reserved _ _ _ _ _ _ Hmd). simpl. split; [lia | done]. }
  destruct (decide (Py.byte_val b0 = 1%Z)) as [H1|H1].
  - assert (b0 = x01) as ->.
    { by apply byte_val_inj. }
    rewrite (manu_callback_temperature _ _ _ _ _ _ Hrej Hmd).
    simpl. split; [lia | done].
  - rewrite (manu_callback_unknown _ _ _ _ _ _ _ Hrej Hmd H0 H1).
    simpl. split; [lia | done].
Qed.

(** Claim C6: in the manufacturer-data script an event that passes the
    address filter is decoded from the payload stored under company
    identifier 0xFFFF and from nothing else; when that payload is absent or
    shorter than three bytes nothing is printed; and an event never gives
    more than one line. *)
Theorem manu_candidate_from_company_ffff
    (mac_filter : option (gset string)) (device : BLEDevice)
    (ad : AdvertisementData) :
  Manu.rejected mac_filter device = false ->
  (manufacturer_data ad !! 65535%Z = None ->
     Manu.callback mac_filter device ad = ([], Done tt))
  /\ (forall payload,
        manufacturer_data ad !! 65535%Z = Some payload -> length payload < 3 ->
        Manu.callback mac_filter device ad = ([], Done tt))
  /\ (forall b0 b1 b2 rest,
        manufacturer_data ad !! 65535%Z = Some (b0 :: b1 :: b2 :: rest) ->
        Manu.parse_sensor_type_and_value ad
        = (Some (Py.byte_val b0), Some [b1; b2]))
  /\ (forall ad',
        manufacturer_data ad' !! 65535%Z = manufacturer_data ad !! 65535%Z ->
        rssi ad' = rssi ad ->
        Manu.callback mac_filter device ad' = Manu.callback mac_filter device ad)
  /\ length (printed (Manu.callback mac_filter device ad)) <= 1
  /\ result (Manu.callback mac_filter device ad) = Done tt.
Proof.
  intros Hrej.
  split; [intros H; by apply manu_callback_no_reading, manu_parse_absent|].
  split.
  { intros payload H Hlen.
    by apply manu_callback_no_reading, manu_parse_short with payload. }
  split; [intros; by apply manu_parse_long with rest|].
  split; [|apply manu_callback_at_most_one].
  intros ad' Hmd Hrssi.
  unfold Manu.callback, Manu.parse_sensor_type_and_value.
  by rewrite Hmd, Hrssi.
Qed.

(** A two-byte payload under 0xFFFF gives no line. *)
Lemma manu_candidate_from_company_ffff_witness :
  Manu.callback None sample_device short_manufacturer_event = ([], Done tt).
Proof.
  destruct (manu_candidate_from_company_ffff None sample_device
              short_manufacturer_event eq_refl) as (_ & Hshort & _).
  apply (Hshort [x01; x10]); [reflexivity | simpl; lia].
Defined.

(** ** The reserved type 0 *)

(** Claim C7: a payload whose first byte is 0 never gives a line.  The
    manufacturer-data script prints nothing for the event; the
    service-data script prints what it prints for the event without that
    entry. *)
Theorem reserved_type_never_reported
    (mac_filter uuid128_filter : option (gset string))
    (device : BLEDevice) (ad : AdvertisementData)
    (pre post : list (string * Py.bytes)) (uuid_str : string)
    (payload rest : Py.bytes) :
  payload = x00 :: rest ->
  (manufacturer_data ad !! 65535%Z = Some payload ->
     Manu.callback mac_filter device ad = ([], Done tt))
  /\ Uuid128.callback_entry uuid128_filter device ad (Py.lower uuid_str, payload)
     = ([], Done tt)
  /\ (service_data ad = Some (pre ++ (uuid_str, payload) :: post) ->
      Uuid128.callback mac_filter uuid128_filter device ad
      = Uuid128.callback mac_filter uuid128_filter device
          (Report.with_service_data ad (pre ++ post))).
Proof.
  intros ->. split; [|split].
  - intros Hmd.
    destruct (Nat.lt_ge_cases (length (x00 :: rest)) 3) as [Hlt|Hge].
    + by apply manu_callback_no_reading, manu_parse_short with (x00 :: rest).
    + destruct rest as [|b1 [|b2 rest]]; simpl in Hge; [lia | lia |].
      by apply manu_callback_reserved with b1 b2 rest.
  - apply uuid_entry_reserved.
  - intros Hsd. apply (uuid_callback_silent_entry _ _ _ _ _ _ _ _ Hsd).
    by rewrite uuid_entry_reserved.
Qed.

(** Neither script prints anything for [reserved_event]. *)
Lemma reserved_type_never_reported_witness :
  Manu.callback None sample_device reserved_event = ([], Done tt)
  /\ Uuid128.callback None None sample_device reserved_event = ([], Done tt).
Proof.
  destruct (reserved_type_never_reported None None sample_device reserved_event
              [] [] listed_uuid [x00; x10; x0e] [x10; x0e] eq_refl)
    as (Hmanu & _ & Huuid).
  split; [apply Hmanu; reflexivity|].
  rewrite Huuid by reflexivity. reflexivity.
Defined.

(** ** Unknown sensor types *)

(** The two digits are upper-case hexadecimal digits and read back as the
    byte. *)
Lemma two_digit_upper_hex_reads_back (b : byte) :
  exists d1 d2,
    Spec.two_digit_upper_hex (Py.byte_val b) = String d1 (String d2 "")
    /\ Spec.upper_hex_value d1 = Some (Py.byte_val b / 16)%Z
    /\ Spec.upper_hex_value d2 = Some (Py.byte_val b mod 16)%Z.
Proof.
  eexists _, _. split; [reflexivity|].
  pose proof (byte_val_range b) as Hb.
  assert (hex_digits_ok (Py.byte_val b) = true) as H.
  { apply (holds_from_spec hex_digits_ok _ _ _ hex_digits_ok_byte). lia. }
  unfold hex_digits_ok in H.
  destruct (Spec.upper_hex_value (Spec.upper_hex_digit (_ / _))) as [hi|];
    [|done].
  destruct (Spec.upper_hex_value (Spec.upper_hex_digit (_ mod _))) as [lo|];
    [|done].
  apply andb_true_iff in H as [Hhi Hlo].
  apply Z.eqb_eq in Hhi, Hlo. by subst.
Qed.

(** Claim C8: a payload whose first byte is neither 0 nor 1, long enough
    for its script (three bytes in manufacturer data, one in service data),
    gives a line that reports an unknown sensor, with the type written as
    two upper-case hexadecimal digits. *)
Theorem unknown_type_rendered_as_two_hex_digits
    (mac_filter uuid128_filter : option (gset string))
    (device : BLEDevice) (ad : AdvertisementData)
    (pre post : list (string * Py.bytes)) (uuid_str : string)
    (payload rest : Py.bytes) (b0 : byte) :
  payload = b0 :: rest ->
  Py.byte_val b0 <> 0%Z -> Py.byte_val b0 <> 1%Z ->
  (3 <= length payload ->
   manufacturer_data ad !! 65535%Z = Some payload ->
   Manu.rejected mac_filter device = false ->
   Manu.callback mac_filter device ad
   = ([Report.manu_line device ad (Report.unknown_field (Py.byte_val b0))],
      Done tt))
  /\ (service_data ad = Some (pre ++ (uuid_str, payload) :: post) ->
      Uuid128.filtered_out mac_filter (Py.upper (address device)) = false ->
      Uuid128.filtered_out uuid128_filter (Py.lower uuid_str) = false ->
      Uuid128.callback mac_filter uuid128_filter device ad
      = (printed (Uuid128.callback mac_filter uuid128_filter device
                    (Report.with_service_data ad pre))
         ++ [Report.uuid_line device ad (Report.unknown_field (Py.byte_val b0))
               (Py.lower uuid_str)]
         ++ printed (Uuid128.callback mac_filter uuid128_filter device
                       (Report.with_service_data ad post)), Done tt))
  /\ (exists d1 d2,
        Report.unknown_field (Py.byte_val b0)
        = "Sensor desconhecido (tipo " +:+ String d1 (String d2 ")")
        /\ Py.format_02X (Py.byte_val b0) = String d1 (String d2 "")
        /\ Spec.upper_hex_value d1 = Some (Py.byte_val b0 / 16)%Z
        /\ Spec.upper_hex_value d2 = Some (Py.byte_val b0 mod 16)%Z).
Proof.
  intros -> H0 H1. split; [|split].
  - intros Hlen Hmd Hrej.
    destruct rest as [|b1 [|b2 rest]]; simpl in Hlen; [lia | lia |].
    by apply manu_callback_unknown with b1 b2 rest.
  - intros Hsd Hmac Huuid.
    rewrite (uuid_callback_split _ _ _ _ _ _ _ _ Hsd Hmac).
    by rewrite (uuid_entry_unknown _ _ _ _ _ _ Huuid H0 H1).
  - destruct (two_digit_upper_hex_reads_back b0) as (d1 & d2 & Heq & Hd1 & Hd2).
    exists d1, d2. unfold Report.unknown_field.
    rewrite format_02X_byte, Heq. done.
Qed.

(** Type 0x0A is written 0A by both scripts. *)
Lemma unknown_type_rendered_as_two_hex_digits_witness :
  Manu.callback None sample_device unknown_event
  = (["AA:BB:CC:DD:EE:FF  RSSI  -50 dBm  Sensor desconhecido (tipo 0A)  Nome: Desconhecido"],
     Done tt)
  /\ Uuid128.callback None None sample_device
       (Report.with_service_data unknown_event [(listed_uuid, [x0a; x10; x0e])])
     = (["AA:BB:CC:DD:EE:FF  RSSI  -50 dBm  Sensor desconhecido (tipo 0A)  UUID: 0000aaaa-0000-1000-8000-00805f9b34fb  Nome: Desconhecido"],
        Done tt).
Proof.
  assert (Py.byte_val x0a <> 0%Z) as H0 by (vm_compute; discriminate).
  assert (Py.byte_val x0a <> 1%Z) as H1 by (vm_compute; discriminate).
  destruct (unknown_type_rendered_as_two_hex_digits None None sample_device
              (Report.with_service_data unknown_event
                 [(listed_uuid, [x0a; x10; x0e])])
              [] [] listed_uuid [x0a; x10; x0e] [x10; x0e] x0a eq_refl H0 H1)
    as (Hmanu & Huuid & _).
  split.
  - apply Hmanu; [simpl; lia | reflexivity | reflexivity].
  - apply Huuid; reflexivity.
Defined.

(** ** Empty and absent payloads *)

(** Claim C9: an empty or absent payload decodes to no reading in both
    scripts, and nothing is printed for it. *)
Theorem empty_payload_gives_no_reading
    (mac_filter uuid128_filter : option (gset string))
    (device : BLEDevice) (ad : AdvertisementData)
    (pre post : list (string * Py.bytes)) (uuid_str : string) :
  (manufacturer_data ad !! 65535%Z = None
   \/ manufacturer_data ad !! 65535%Z = Some [] ->
   Manu.parse_sensor_type_and_value ad = (None, None)
   /\ Manu.callback mac_filter device ad = ([], Done tt))
  /\ Uuid128.parse_service_data None = (None, None)
  /\ Uuid128.parse_service_data (Some []) = (None, None)
  /\ Uuid128.callback_entry uuid128_filter device ad (Py.lower uuid_str, [])
     = ([], Done tt)
  /\ (service_data ad = Some (pre ++ (uuid_str, []) :: post) ->
      Uuid128.callback mac_filter uuid128_filter device ad
      = Uuid128.callback mac_filter uuid128_filter device
          (Report.with_service_data ad (pre ++ post))).
Proof.
  split; [|split; [done|split; [done|split]]].
  - intros Hmd.
    assert (Manu.parse_sensor_type_and_value ad = (None, None)) as Hparse.
    { destruct Hmd as [Hmd|Hmd]; [by apply manu_parse_absent|].
      apply manu_parse_short with []; [done | simpl; lia]. }
    split; [done | by apply manu_callback_no_reading].
  - apply uuid_entry_empty.
  - intros Hsd. apply (uuid_callback_silent_entry _ _ _ _ _ _ _ _ Hsd).
    by rewrite uuid_entry_empty.
Qed.

(** Neither script prints anything for [empty_payload_event]. *)
Lemma empty_payload_gives_no_reading_witness :
  Manu.callback None sample_device empty_payload_event = ([], Done tt)
  /\ Uuid128.callback None None sample_device empty_payload_event
     = ([], Done tt).
Proof.
  destruct (empty_payload_gives_no_reading None None sample_device
              empty_payload_event [] [] listed_uuid)
    as (Hmanu & _ & _ & _ & Huuid).
  split; [apply Hmanu; right; reflexivity|].
  rewrite Huuid by reflexivity. reflexivity.
Defined.

(** ** Bytes beyond the third *)

(** Claim C10: two payloads of at least three bytes that agree on their
    first three bytes decode to the same type and value and give the same
    lines, in both scripts. *)
Theorem bytes_beyond_third_ignored
    (mac_filter uuid128_filter : option (gset string))
    (device : BLEDevice) (ad ad' : AdvertisementData)
    (pre post : list (string * Py.bytes)) (uuid_str : string)
    (payload payload' rest rest' : Py.bytes) (b0 b1 b2 : byte) :
  payload = b0 :: b1 :: b2 :: rest ->
  payload' = b0 :: b1 :: b2 :: rest' ->
  rssi ad' = rssi ad ->
  (manufacturer_data ad !! 65535%Z = Some payload ->
   manufacturer_data ad' !! 65535%Z = Some payload' ->
   Manu.parse_sensor_type_and_value ad' = Manu.parse_sensor_type_and_value ad
   /\ Manu.callback mac_filter device ad' = Manu.callback mac_filter device ad)
  /\ Uuid128.parse_service_data (Some payload')
     = Uuid128.parse_service_data (Some payload)
  /\ (service_data ad = Some (pre ++ (uuid_str, payload) :: post) ->
      service_data ad' = Some (pre ++ (uuid_str, payload') :: post) ->
      Uuid128.callback mac_filter uuid128_filter device ad'
      = Uuid128.callback mac_filter uuid128_filter device ad).
Proof.
  intros -> -> Hrssi. split; [|split; [done|]].
  - intros Hmd Hmd'.
    assert (Manu.parse_sensor_type_and_value ad'
            = Manu.parse_sensor_type_and_value ad) as Hparse.
    { by rewrite (manu_parse_long _ _ _ _ _ Hmd), (manu_parse_long _ _ _ _ _ Hmd'). }
    split; [done|]. unfold Manu.callback. by rewrite Hparse, Hrssi.
  - intros Hsd Hsd'.
    destruct (Uuid128.filtered_out mac_filter (Py.upper (address device)))
      eqn:Hmac.
    { by rewrite !uuid_callback_rejected. }
    rewrite (uuid_callback_entries _ _ _ _ _ Hsd Hmac).
    rewrite (uuid_callback_entries _ _ _ _ _ Hsd' Hmac).
    rewrite !flat_map_app. cbn [flat_map fst snd].
    unfold Uuid128.callback_entry. rewrite !uuid_parse_long, Hrssi. done.
Qed.

(** The line of 01 DC 09 FF 00 7F is the line of 01 DC 09. *)
Lemma bytes_beyond_third_ignored_witness :
  Manu.callback None sample_device long_payload_event
  = Manu.callback None sample_device temperature_event
  /\ Uuid128.callback None None sample_device long_payload_event
     = Uuid128.callback None None sample_device
         (Report.with_service_data temperature_event
            [(listed_uuid, [x01; xdc; x09])]).
Proof.
  destruct (bytes_beyond_third_ignored None None sample_device
              (Report.with_service_data temperature_event
                 [(listed_uuid, [x01; xdc; x09])])
              long_payload_event [] [] listed_uuid
              [x01; xdc; x09] [x01; xdc; x09; xff; x00; x7f]
              [] [xff; x00; x7f] x01 xdc x09 eq_refl eq_refl eq_refl)
    as (Hmanu & _ & Huuid).
  split.
  - apply (Hmanu eq_refl eq_refl).
  - apply (Huuid eq_refl eq_refl).
Defined.

(** ** The scan driver *)

Lemma sleep_loop_quiet w turns : forall k,
  (forall i, i < turns -> Driver.sleep w (k + i) = None) ->
  Driver.sleep_loop w turns k = (repeat (Driver.Sleep 1) turns, Driver.Scanning).
Proof.
  induction turns as [|turns IH]; intros k Hquiet; [done|].
  cbn [Driver.sleep_loop repeat].
  pose proof (Hquiet 0 ltac:(lia)) as H0. rewrite Nat.add_0_r in H0.
  rewrite H0, IH; [done|].
  intros i Hi. replace (S k + i) with (k + S i) by lia. apply Hquiet. lia.
Qed.

Lemma sleep_loop_raises w turns j e : forall k,
  j < turns ->
  (forall i, i < j -> Driver.sleep w (k + i) = None) ->
  Driver.sleep w (k + j) = Some e ->
  Driver.sleep_loop w turns k
  = (repeat (Driver.Sleep 1) (S j), Driver.Raising e).
Proof.
  revert j. induction turns as [|turns IH]; intros j k Hj Hquiet Hraise; [lia|].
  cbn [Driver.sleep_loop].
  destruct j as [|j].
  - rewrite Nat.add_0_r in Hraise. by rewrite Hraise.
  - pose proof (Hquiet 0 ltac:(lia)) as H0. rewrite Nat.add_0_r in H0.
    rewrite H0, (IH j (S k)); [done | lia | |].
    + intros i Hi. replace (S k + i) with (k + S i) by lia. apply Hquiet. lia.
    + by replace (S k + j) with (k + S j) by lia.
Qed.

(** The loop never returns: it is left by an exception or not at all, and
    it only sleeps. *)
Lemma sleep_loop_shape w turns : forall k,
  exists n,
    (Driver.sleep_loop w turns k).1 = repeat (Driver.Sleep 1) n
    /\ (Driver.sleep_loop w turns k).2 <> Driver.Returned.
Proof.
  induction turns as [|turns IH]; intros k; [by exists 0|].
  cbn [Driver.sleep_loop]. destruct (Driver.sleep w k) as [e|].
  - by exists 1.
  - destruct (IH (S k)) as (n & Ht & Hs). exists (S n).
    unfold Driver.and_then, Driver.call. cbn [fst snd app repeat].
    by rewrite Ht.
Qed.

Lemma count_app p (t1 t2 : list Driver.event) :
  Driver.count p (t1 ++ t2) = Driver.count p t1 + Driver.count p t2.
Proof. induction t1 as [|ev t1 IH]; cbn; [done | rewrite IH; lia]. Qed.

Lemma count_repeat_sleep p n :
  Driver.count p (repeat (Driver.Sleep 1) n)
  = if p (Driver.Sleep 1) then n else 0.
Proof.
  induction n as [|n IH]; cbn [repeat Driver.count]; [by destruct (p _)|].
  rewrite IH. by destruct (p _).
Qed.

(** A run for a given time: whatever the number of turns allowed, it sleeps
    once, for that time; an interruption of the sleep by the keyboard is
    reported and the run returns; the scanner is stopped in every case, and
    an exception of the stop is the one that leaves [run]. *)
Theorem run_for_a_time (w : Driver.world) (turns : nat) (seconds : Z) :
  Driver.create w = None -> Driver.start w = None -> seconds <> 0%Z ->
  Driver.run w turns (Some seconds)
  = ([Driver.Create;
      Driver.Print "🔎 Iniciando scanner BLE… (Ctrl+C para parar)";
      Driver.Start; Driver.Sleep seconds]
     ++ match Driver.sleep w 0 with
        | Some Driver.KeyboardInterrupt =>
            [Driver.Print "
⛔ Interrompido pelo usuário."]
        | _ => []
        end
     ++ Driver.Stop
        :: match Driver.stop w with
           | None => [Driver.Print "✅ Scanner finalizado."]
           | Some _ => []
           end,
     match Driver.stop w, Driver.sleep w 0 with
     | Some e, _ => Driver.Raising e
     | None, (None | Some Driver.KeyboardInterrupt) => Driver.Returned
     | None, Some e => Driver.Raising e
     end).
Proof.
  intros Hcreate Hstart Hsec. unfold Driver.run.
  rewrite Hcreate, Hstart. cbn [Driver.truthy_int default].
  destruct (Z.eqb_spec seconds 0) as [|_]; [done|]. cbn [negb].
  destruct (Driver.sleep w 0) as [[| |]|], (Driver.stop w) as [e'|]; done.
Qed.

Lemma run_for_a_time_witness :
  Driver.run (Driver.interrupted_at 0 Driver.KeyboardInterrupt) 0 (Some 30%Z)
  = ([Driver.Create;
      Driver.Print "🔎 Iniciando scanner BLE… (Ctrl+C para parar)";
      Driver.Start; Driver.Sleep 30;
      Driver.Print "
⛔ Interrompido pelo usuário.";
      Driver.Stop; Driver.Print "✅ Scanner finalizado."], Driver.Returned).
Proof.
  apply (run_for_a_time (Driver.interrupted_at 0 Driver.KeyboardInterrupt) 0 30
           eq_refl eq_refl).
  discriminate.
Defined.

(** A run without a time, or with the time 0: it sleeps one second at a
    time until a sleep raises; with turns enough to reach that sleep, the
    run is left as a run for a given time is. *)
Theorem run_until_interrupted (w : Driver.world) (turns j : nat)
    (scan_time : option Z) (e : Driver.raised) :
  Driver.create w = None -> Driver.start w = None ->
  scan_time = None \/ scan_time = Some 0%Z ->
  (forall i, i < j -> Driver.sleep w i = None) ->
  Driver.sleep w j = Some e ->
  j < turns ->
  Driver.run w turns scan_time
  = ([Driver.Create;
      Driver.Print "🔎 Iniciando scanner BLE… (Ctrl+C para parar)";
      Driver.Start]
     ++ repeat (Driver.Sleep 1) (S j)
     ++ match e with
        | Driver.KeyboardInterrupt =>
            [Driver.Print "
⛔ Interrompido pelo usuário."]
        | _ => []
        end
     ++ Driver.Stop
        :: match Driver.stop w with
           | None => [Driver.Print "✅ Scanner finalizado."]
           | Some _ => []
           end,
     match Driver.stop w, e with
     | Some e', _ => Driver.Raising e'
     | None, Driver.KeyboardInterrupt => Driver.Returned
     | None, _ => Driver.Raising e
     end).
Proof.
  intros Hcreate Hstart Htime Hquiet Hraise Hj. unfold Driver.run.
  rewrite Hcreate, Hstart.
  assert (Driver.truthy_int scan_time = false) as ->
    by (by destruct Htime as [-> | ->]).
  rewrite (sleep_loop_raises w turns j e 0 Hj Hquiet Hraise).
  unfold Driver.and_then, Driver.finally, Driver.except_keyboard_interrupt,
    Driver.call, Driver.print_line.
  destruct e, (Driver.stop w) as [e'|]; cbn [fst snd app];
    rewrite <- ?app_assoc, ?app_nil_r; done.
Qed.

Lemma run_until_interrupted_witness :
  Driver.run (Driver.interrupted_at 2 Driver.CancelledError) 5 (Some 0%Z)
  = ([Driver.Create;
      Driver.Print "🔎 Iniciando scanner BLE… (Ctrl+C para parar)";
      Driver.Start; Driver.Sleep 1; Driver.Sleep 1; Driver.Sleep 1;
      Driver.Stop; Driver.Print "✅ Scanner finalizado."],
     Driver.Raising Driver.CancelledError).
Proof.
  apply (run_until_interrupted (Driver.interrupted_at 2 Driver.CancelledError)
           5 2 (Some 0%Z) Driver.CancelledError eq_refl eq_refl).
  - right. reflexivity.
  - intros i Hi. destruct i as [|[|i]]; [reflexivity | reflexivity | lia].
  - reflexivity.
  - lia.
Defined.

(** A run without a time, or with the time 0, does not end by itself: as
    long as no sleep raises it is still scanning, it has slept one second
    per turn and it has not stopped the scanner. *)
Theorem run_keeps_scanning (w : Driver.world) (turns : nat)
    (scan_time : option Z) :
  Driver.create w = None -> Driver.start w = None ->
  scan_time = None \/ scan_time = Some 0%Z ->
  (forall i, i < turns -> Driver.sleep w i = None) ->
  Driver.run w turns scan_time
  = ([Driver.Create;
      Driver.Print "🔎 Iniciando scanner BLE… (Ctrl+C para parar)";
      Driver.Start] ++ repeat (Driver.Sleep 1) turns, Driver.Scanning)
  /\ Driver.count Driver.is_stop (Driver.run w turns scan_time).1 = 0.
Proof.
  intros Hcreate Hstart Htime Hquiet.
  assert (Driver.run w turns scan_time
          = ([Driver.Create;
              Driver.Print "🔎 Iniciando scanner BLE… (Ctrl+C para parar)";
              Driver.Start] ++ repeat (Driver.Sleep 1) turns, Driver.Scanning))
    as Hrun.
  { unfold Driver.run. rewrite Hcreate, Hstart.
    assert (Driver.truthy_int scan_time = false) as ->
      by (by destruct Htime as [-> | ->]).
    by rewrite (sleep_loop_quiet w turns 0 Hquiet). }
  split; [done|]. rewrite Hrun. cbn [fst].
  by rewrite count_app, count_repeat_sleep.
Qed.

Lemma run_keeps_scanning_witness :
  Driver.run Driver.quiet 3 (Some 0%Z)
  = ([Driver.Create;
      Driver.Print "🔎 Iniciando scanner BLE… (Ctrl+C para parar)";
      Driver.Start; Driver.Sleep 1; Driver.Sleep 1; Driver.Sleep 1],
     Driver.Scanning).
Proof.
  apply (run_keeps_scanning Driver.quiet 3 (Some 0%Z) eq_refl eq_refl).
  - right. reflexivity.
  - reflexivity.
Defined.

Lemma guarded_teardown (w : Driver.world) (tb : list Driver.event)
    (sb : Driver.status) (interrupted finished : string) :
  Driver.count Driver.is_stop tb = 0 ->
  let r :=
    Driver.finally
      (Driver.except_keyboard_interrupt (tb, sb) (Driver.print_line interrupted))
      (Driver.and_then (Driver.call Driver.Stop (Driver.stop w))
         (Driver.print_line finished)) in
  (sb = Driver.Scanning -> r = (tb, Driver.Scanning))
  /\ (sb <> Driver.Scanning ->
      r.2 <> Driver.Scanning
      /\ exists pre post,
           r.1 = pre ++ Driver.Stop :: post
           /\ Driver.count Driver.is_stop pre = 0
           /\ forallb Driver.is_print post = true).
Proof.
  intros Htb r. subst r. split; [by intros ->|]. intros Hsb.
  destruct sb as [|e|]; [| |done].
  - destruct (Driver.stop w) as [e'|] eqn:Hstop; cbn.
    + split; [done|]. by exists tb, [].
    + split; [done|]. by exists tb, [Driver.Print finished].
  - destruct e; destruct (Driver.stop w) as [e'|] eqn:Hstop; cbn;
      (split; [done|]).
    + exists (tb ++ [Driver.Print interrupted]), [].
      rewrite <- app_assoc. split; [done|].
      rewrite count_app, Htb. done.
    + exists (tb ++ [Driver.Print interrupted]), [Driver.Print finished].
      rewrite <- app_assoc. split; [done|].
      rewrite count_app, Htb. done.
    + by exists tb, [].
    + by exists tb, [Driver.Print finished].
    + by exists tb, [].
    + by exists tb, [Driver.Print finished].
Qed.

Lemma scanning_or_left (s : Driver.status) :
  s = Driver.Scanning \/ s <> Driver.Scanning.
Proof. destruct s; [by right | by right | by left]. Qed.

(** What [run] waits with stops no scanner. *)
Lemma waiting_never_stops (w : Driver.world) (turns : nat) (scan_time : option Z) :
  Driver.count Driver.is_stop
    (if Driver.truthy_int scan_time then
       Driver.call (Driver.Sleep (default 0%Z scan_time)) (Driver.sleep w 0)
     else Driver.sleep_loop w turns 0).1 = 0.
Proof.
  destruct (Driver.truthy_int scan_time); [done|].
  destruct (sleep_loop_shape w turns 0) as (n & -> & _).
  by rewrite count_repeat_sleep.
Qed.

(** The scanner is stopped exactly once on every way out of a run whose
    scanner was started, the stop is the last call made to the BLE stack,
    and nothing but printing follows it; a run that is still scanning has
    not stopped the scanner; and when the scanner cannot be created or
    started, [run] raises without sleeping and without a stop. *)
Theorem run_stops_started_scanner_once (w : Driver.world) (turns : nat)
    (scan_time : option Z) :
  let t := (Driver.run w turns scan_time).1 in
  let s := (Driver.run w turns scan_time).2 in
  (Driver.create w = None -> Driver.start w = None -> s <> Driver.Scanning ->
   Driver.count Driver.is_stop t = 1
   /\ exists pre post,
        t = pre ++ Driver.Stop :: post /\ forallb Driver.is_print post = true)
  /\ (s = Driver.Scanning -> Driver.count Driver.is_stop t = 0)
  /\ (forall e, Driver.create w = Some e ->
        t = [Driver.Create] /\ s = Driver.Raising e)
  /\ (forall e, Driver.create w = None -> Driver.start w = Some e ->
        t = [Driver.Create;
             Driver.Print "🔎 Iniciando scanner BLE… (Ctrl+C para parar)";
             Driver.Start]
        /\ s = Driver.Raising e).
Proof.
  intros t s. subst t s. unfold Driver.run.
  pose proof (guarded_teardown w _
                (if Driver.truthy_int scan_time then
                   Driver.call (Driver.Sleep (default 0%Z scan_time))
                     (Driver.sleep w 0)
                 else Driver.sleep_loop w turns 0).2 "
⛔ Interrompido pelo usuário." "✅ Scanner finalizado."
                (waiting_never_stops w turns scan_time)) as Hguard.
  cbv zeta in Hguard. rewrite <- surjective_pairing in Hguard.
  destruct Hguard as [Hscanning Hleft].
  set (r := Driver.finally _ _) in *.
  destruct (Driver.create w) as [ec|] eqn:Hcreate.
  { split; [done|]. split; [done|]. split; [|done]. by intros e [= <-]. }
  destruct (Driver.start w) as [es|] eqn:Hstart.
  { split; [done|]. split; [done|]. split; [done|]. by intros e _ [= <-]. }
  clearbody r.
  assert (Driver.and_then (Driver.call Driver.Create None)
            (Driver.and_then
               (Driver.print_line
                  "🔎 Iniciando scanner BLE… (Ctrl+C para parar)")
               (Driver.and_then (Driver.call Driver.Start None) r))
          = (Driver.Create
             :: Driver.Print "🔎 Iniciando scanner BLE… (Ctrl+C para parar)"
             :: Driver.Start :: r.1, r.2)) as ->
    by (by destruct r).
  cbn [fst snd].
  split; [|split; [|done]].
  - intros _ _ Hs.
    destruct (scanning_or_left
                (if Driver.truthy_int scan_time then
                   Driver.call (Driver.Sleep (default 0%Z scan_time))
                     (Driver.sleep w 0)
                 else Driver.sleep_loop w turns 0).2) as [Hsb|Hsb].
    { rewrite (Hscanning Hsb) in Hs. done. }
    destruct (Hleft Hsb) as (_ & pre & post & Hr & Hpre & Hpost).
    rewrite Hr. split.
    + cbn [Driver.count Driver.is_stop]. rewrite count_app, Hpre.
      cbn [Driver.count Driver.is_stop].
      assert (Driver.count Driver.is_stop post = 0) as ->; [|done].
      clear -Hpost. induction post as [|ev post IH]; [done|].
      cbn in Hpost. apply andb_true_iff in Hpost as [Hev Hpost].
      destruct ev; try done. cbn. by apply IH.
    + exists (Driver.Create
              :: Driver.Print "🔎 Iniciando scanner BLE… (Ctrl+C para parar)"
              :: Driver.Start :: pre), post. done.
  - intros Hs.
    destruct (scanning_or_left
                (if Driver.truthy_int scan_time then
                   Driver.call (Driver.Sleep (default 0%Z scan_time))
                     (Driver.sleep w 0)
                 else Driver.sleep_loop w turns 0).2) as [Hsb|Hsb].
    + rewrite (Hscanning Hsb). cbn [fst Driver.count Driver.is_stop].
      apply waiting_never_stops.
    + destruct (Hleft Hsb) as (Hr & _). done.
Qed.

(** ** The start of the scripts *)

(** The loading steps of the two scripts are the ones of [configure]. *)
Lemma load_if_given_configure fs macs uuid128 :
  Driver.load_if_given (Manu.load_mac_list fs) macs = Manu.configure fs macs
  /\ (mac_filter ← Driver.load_if_given (Uuid128.load_mac_list fs) macs;
      uuid128_filter ← Driver.load_if_given (Uuid128.load_uuid128_list fs) uuid128;
      mret (mac_filter, uuid128_filter))
     = Uuid128.configure fs macs uuid128.
Proof. done. Qed.



(** A list file that exists and cannot be read ends the script before the
    scanner is created: nothing is printed, no call reaches the BLE stack,
    and the exception goes uncaught.  In the service-data script a failure
    on the list of addresses also keeps the list of UUIDs from being
    opened, and a failure on the list of UUIDs comes after the list of
    addresses was loaded and reported. *)
Theorem unreadable_list_prevents_scan (fs : Py.filesystem) (w : Driver.world)
    (turns : nat) (a : Driver.args) (path : string) (e : exn) :
  path <> "" ->
  fs path = Py.Unreadable e ->
  e <> FileNotFoundError ->
  (Driver.args_macs a = Some path ->
   Driver.manu_main fs w turns a = ([], None, Driver.LoadFailed e)
   /\ Driver.uuid128_main fs w turns a
      = ([], (None, None), Driver.LoadFailed e))
  /\ (Driver.args_uuid128 a = Some path ->
      forall out mac_filter,
        Driver.load_if_given (Uuid128.load_mac_list fs) (Driver.args_macs a)
        = (out, Done mac_filter) ->
        Driver.uuid128_main fs w turns a
        = (map Driver.Print out, (mac_filter, None), Driver.LoadFailed e)).
Proof.
  intros Hpath Hfs He.
  assert (Py.truthy_str path = true) as Htruthy by (by destruct path).
  split.
  - intros Hmacs.
    unfold Driver.manu_main, Driver.uuid128_main, Driver.load_if_given.
    rewrite Hmacs, Htruthy.
    unfold Uuid128.load_mac_list, Manu.load_mac_list. rewrite Hfs.
    by destruct e.
  - intros Huuid out mac_filter Hload.
    unfold Driver.uuid128_main. rewrite Hload.
    unfold Driver.load_if_given at 1. rewrite Huuid, Htruthy.
    unfold Uuid128.load_uuid128_list. rewrite Hfs.
    destruct e; [by destruct He | ..]; unfold raise; cbv beta iota;
      by rewrite app_nil_r.
Qed.

(** A file system in which [macs.txt] exists and may not be read. *)
Lemma unreadable_list_prevents_scan_witness :
  Driver.manu_main (fun _ => Py.Unreadable PermissionError) Driver.quiet 3
    {| Driver.args_macs := Some "macs.txt";
       Driver.args_uuid128 := None;
       Driver.args_time := None |}
  = ([], None, Driver.LoadFailed PermissionError).
Proof.
  destruct (unreadable_list_prevents_scan
              (fun _ => Py.Unreadable PermissionError) Driver.quiet 3
              {| Driver.args_macs := Some "macs.txt";
                 Driver.args_uuid128 := None;
                 Driver.args_time := None |} "macs.txt" PermissionError)
    as [Hmacs _]; [discriminate | reflexivity | discriminate |].
  apply Hmacs. reflexivity.
Defined.

(** ** Normal forms of list entries *)

Lemma upper_char_facts (c : ascii) :
  Py.upper_char (Py.upper_char c) = Py.upper_char c
  /\ Py.isspace (Py.upper_char c) = Py.isspace c.
Proof. destruct c as [[] [] [] [] [] [] [] []]; vm_compute; done. Qed.

Lemma lower_char_facts (c : ascii) :
  Py.lower_char (Py.lower_char c) = Py.lower_char c
  /\ Py.isspace (Py.lower_char c) = Py.isspace c.
Proof. destruct c as [[] [] [] [] [] [] [] []]; vm_compute; done. Qed.

Lemma map_chars_idem f s :
  (forall c, f (f c) = f c) -> Py.map_chars f (Py.map_chars f s) = Py.map_chars f s.
Proof.
  intros Hf. induction s as [|c s IH]; [done|].
  cbn [Py.map_chars]. by rewrite Hf, IH.
Qed.

Lemma map_chars_empty f s : Py.map_chars f s = "" <-> s = "".
Proof. by destruct s. Qed.

Lemma lstrip_map_chars f s :
  (forall c, Py.isspace (f c) = Py.isspace c) ->
  Py.lstrip (Py.map_chars f s) = Py.map_chars f (Py.lstrip s).
Proof.
  intros Hf. induction s as [|c s IH]; [done|].
  cbn [Py.map_chars Py.lstrip]. rewrite Hf. by destruct (Py.isspace c).
Qed.

Lemma rstrip_cons c s :
  Py.rstrip (String c s)
  = match Py.rstrip s with
    | "" => if Py.isspace c then "" else String c ""
    | r => String c r
    end.
Proof. done. Qed.

Lemma rstrip_map_chars f s :
  (forall c, Py.isspace (f c) = Py.isspace c) ->
  Py.rstrip (Py.map_chars f s) = Py.map_chars f (Py.rstrip s).
Proof.
  intros Hf. induction s as [|c s IH]; [done|].
  cbn [Py.map_chars]. rewrite !rstrip_cons, IH, Hf.
  destruct (Py.rstrip s) as [|d r]; [by destruct (Py.isspace c) | done].
Qed.

Lemma strip_map_chars f s :
  (forall c, Py.isspace (f c) = Py.isspace c) ->
  Py.strip (Py.map_chars f s) = Py.map_chars f (Py.strip s).
Proof.
  intros Hf. unfold Py.strip.
  by rewrite lstrip_map_chars, rstrip_map_chars.
Qed.

Lemma rstrip_idem s : Py.rstrip (Py.rstrip s) = Py.rstrip s.
Proof.
  induction s as [|c s IH]; [done|]. rewrite rstrip_cons.
  destruct (Py.rstrip s) as [|d r] eqn:Hr.
  - destruct (Py.isspace c) eqn:Hc; [done|].
    rewrite rstrip_cons. cbn [Py.rstrip]. by rewrite Hc.
  - by rewrite rstrip_cons, IH.
Qed.

Lemma rstrip_cons_nonspace c s :
  Py.isspace c = false -> Py.rstrip (String c s) = String c (Py.rstrip s).
Proof.
  intros Hc. rewrite rstrip_cons.
  destruct (Py.rstrip s); [by rewrite Hc | done].
Qed.

Lemma lstrip_head s :
  Py.lstrip s = "" \/ exists c s', Py.lstrip s = String c s' /\ Py.isspace c = false.
Proof.
  induction s as [|c s IH]; [by left|]. cbn [Py.lstrip].
  destruct (Py.isspace c) eqn:Hc; [done|]. right. by exists c, s.
Qed.

(** Stripping twice is stripping once. *)
Lemma strip_idem s : Py.strip (Py.strip s) = Py.strip s.
Proof.
  unfold Py.strip.
  destruct (lstrip_head s) as [-> | (c & s' & -> & Hc)]; [done|].
  rewrite (rstrip_cons_nonspace c s' Hc). cbn [Py.lstrip]. rewrite Hc.
  rewrite (rstrip_cons_nonspace c _ Hc). by rewrite rstrip_idem.
Qed.

(** *** Texts of ASCII characters *)

Lemma case_char_ascii (c : ascii) :
  Reading.ascii_char (Py.upper_char c) = Reading.ascii_char c
  /\ Reading.ascii_char (Py.lower_char c) = Reading.ascii_char c.
Proof. destruct c as [[] [] [] [] [] [] [] []]; vm_compute; done. Qed.

Lemma is_ascii_cons c s :
  Reading.is_ascii (String c s) = true
  <-> Reading.ascii_char c = true /\ Reading.is_ascii s = true.
Proof. cbn [Reading.is_ascii]. apply andb_true_iff. Qed.

Lemma is_ascii_map_chars f s :
  (forall c, Reading.ascii_char (f c) = Reading.ascii_char c) ->
  Reading.is_ascii (Py.map_chars f s) = Reading.is_ascii s.
Proof.
  intros Hf. induction s as [|c s IH]; [done|].
  cbn [Py.map_chars Reading.is_ascii]. by rewrite Hf, IH.
Qed.

Lemma is_ascii_lstrip s :
  Reading.is_ascii s = true -> Reading.is_ascii (Py.lstrip s) = true.
Proof.
  induction s as [|c s IH]; [done|]. intros Hs. cbn [Py.lstrip].
  destruct (Py.isspace c); [|done].
  apply IH. by apply is_ascii_cons in Hs as [_ Hs].
Qed.

Lemma is_ascii_rstrip s :
  Reading.is_ascii s = true -> Reading.is_ascii (Py.rstrip s) = true.
Proof.
  induction s as [|c s IH]; [done|].
  intros [Hc Hs]%is_ascii_cons. specialize (IH Hs). rewrite rstrip_cons.
  destruct (Py.rstrip s) as [|d r].
  - destruct (Py.isspace c); [done|]. by apply is_ascii_cons.
  - by apply is_ascii_cons.
Qed.

Lemma is_ascii_strip s :
  Reading.is_ascii s = true -> Reading.is_ascii (Py.strip s) = true.
Proof. intros Hs. by apply is_ascii_rstrip, is_ascii_lstrip. Qed.

(** Text mode keeps an ASCII text ASCII. *)
Lemma is_ascii_universal_newlines s :
  Reading.is_ascii s = true ->
  Reading.is_ascii (Py.universal_newlines s) = true.
Proof.
  assert (forall n s, String.length s <= n -> Reading.is_ascii s = true ->
                      Reading.is_ascii (Py.universal_newlines s) = true)
    as Hlen; [|by apply (Hlen (String.length s))].
  clear s. induction n as [|n IH]; intros s Hn Hs.
  { destruct s; [done | cbn in Hn; lia]. }
  destruct s as [|c s]; [done|]. cbn [String.length] in Hn.
  apply is_ascii_cons in Hs as [Hc Hs].
  cbn [Py.universal_newlines]. destruct (Ascii.eqb c Py.CR).
  - apply is_ascii_cons. split; [done|].
    destruct s as [|c' s'']; [done|].
    destruct (Ascii.eqb c' Py.LF).
    + apply is_ascii_cons in Hs as [_ Hs].
      apply IH; [cbn [String.length] in Hn; lia | done].
    + apply IH; [lia | done].
  - apply is_ascii_cons. split; [done|]. apply IH; [lia | done].
Qed.

(** The lines of an ASCII text are ASCII. *)
Lemma is_ascii_split_keepends s line :
  Reading.is_ascii s = true -> line ∈ Py.split_keepends s ->
  Reading.is_ascii line = true.
Proof.
  revert line. induction s as [|c s IH]; intros line Hs Hline.
  { by apply elem_of_nil in Hline. }
  apply is_ascii_cons in Hs as [Hc Hs]. cbn [Py.split_keepends] in Hline.
  destruct (Ascii.eqb c Py.LF).
  - apply elem_of_cons in Hline as [-> | Hline]; [|by apply IH].
    by apply is_ascii_cons.
  - destruct (Py.split_keepends s) as [|l ls].
    + apply list_elem_of_singleton in Hline as ->. by apply is_ascii_cons.
    + apply elem_of_cons in Hline as [-> | Hline].
      * apply is_ascii_cons. split; [done|]. apply IH; [done|].
        apply elem_of_cons. by left.
      * apply IH; [done|]. apply elem_of_cons. by right.
Qed.

Lemma is_ascii_file_lines text line :
  Reading.is_ascii text = true -> line ∈ Py.file_lines text ->
  Reading.is_ascii line = true.
Proof.
  intros Htext. apply is_ascii_split_keepends.
  by apply is_ascii_universal_newlines.
Qed.

(** The entries of a list loaded from a file of ASCII text are in normal
    form: each is ASCII, none is empty, none has white space at either
    end, and addresses hold no lower-case letter, UUIDs no upper-case
    letter.  An address or a UUID is compared with them after the same
    change of case, so an entry is never out of reach because of the case
    it was written in. *)
Theorem loaded_entries_are_normalised (fs : Py.filesystem) (path text : string) :
  fs path = Py.Readable text ->
  Reading.is_ascii text = true ->
  exists macs uuids : gset string,
    result (Manu.load_mac_list fs path) = Done (Some macs)
    /\ result (Uuid128.load_uuid128_list fs path) = Done (Some uuids)
    /\ (forall x, x ∈ macs ->
          Reading.is_ascii x = true
          /\ x <> "" /\ Py.strip x = x /\ Py.upper x = x)
    /\ (forall x, x ∈ uuids ->
          Reading.is_ascii x = true
          /\ x <> "" /\ Py.strip x = x /\ Py.lower x = x).
Proof.
  intros Hfs Htext. unfold Manu.load_mac_list, Uuid128.load_uuid128_list.
  rewrite Hfs. eexists _, _. split; [reflexivity|]. split; [reflexivity|].
  assert (forall s, Py.truthy_str s = true -> s <> "") as Htruthy
    by (by intros [|c s]).
  split; intros x Hx; apply elem_of_set_comprehension in Hx
    as (line & Hin & Hline & ->); apply Htruthy in Hline;
    pose proof (is_ascii_strip _ (is_ascii_file_lines _ _ Htext Hin)) as Hascii.
  - split.
    { unfold Py.upper. by rewrite is_ascii_map_chars by apply case_char_ascii. }
    split; [by intros ?%map_chars_empty|]. unfold Py.upper. split.
    + rewrite strip_map_chars by apply upper_char_facts. by rewrite strip_idem.
    + apply map_chars_idem, upper_char_facts.
  - split.
    { unfold Py.lower. by rewrite is_ascii_map_chars by apply case_char_ascii. }
    split; [by intros ?%map_chars_empty|]. unfold Py.lower. split.
    + rewrite strip_map_chars by apply lower_char_facts. by rewrite strip_idem.
    + apply map_chars_idem, lower_char_facts.
Qed.

Lemma loaded_entries_are_normalised_witness :
  exists macs : gset string,
    result (Manu.load_mac_list listed_fs "macs.txt") = Done (Some macs)
    /\ forall x, x ∈ macs ->
         Reading.is_ascii x = true
         /\ x <> "" /\ Py.strip x = x /\ Py.upper x = x.
Proof.
  destruct (loaded_entries_are_normalised listed_fs "macs.txt" _
              eq_refl eq_refl)
    as (macs & _ & Hmacs & _ & Hnormal & _).
  by exists macs.
Defined.

(** ** From a list file to the filter *)

Lemma set_comprehension_empty f p xs :
  Py.set_comprehension f p xs = ∅ <-> forall x, x ∈ xs -> p x = false.
Proof.
  split.
  - intros Hempty x Hx. destruct (p x) eqn:Hp; [|done].
    assert (f x ∈ Py.set_comprehension f p xs) as Hin
      by (apply elem_of_set_comprehension; by exists x).
    rewrite Hempty in Hin. by apply not_elem_of_empty in Hin.
  - intros Hall. apply set_eq. intros y. split; [|by intros ?%not_elem_of_empty].
    intros (x & Hx & Hp & _)%elem_of_set_comprehension.
    rewrite (Hall x Hx) in Hp. done.
Qed.

(** With a list file that is read, the service-data script lets an address
    (a UUID) through exactly when a non-blank line of the file is that
    address (that UUID) up to letter case and surrounding white space.  The
    manufacturer-data script lets an address through in that case and also
    whenever the file has no non-blank line at all. *)
Theorem listed_identifiers_pass (fs : Py.filesystem) (path text : string)
    (device : BLEDevice) (uuid_str : string) :
  fs path = Py.Readable text ->
  exists macs uuids : gset string,
    result (Manu.load_mac_list fs path) = Done (Some macs)
    /\ result (Uuid128.load_mac_list fs path) = Done (Some macs)
    /\ result (Uuid128.load_uuid128_list fs path) = Done (Some uuids)
    /\ (Uuid128.filtered_out (Some macs) (Py.upper (address device)) = false
        <-> exists line, line ∈ Py.file_lines text /\ Py.strip line <> ""
              /\ Py.upper (Py.strip line) = Py.upper (address device))
    /\ (Uuid128.filtered_out (Some uuids) (Py.lower uuid_str) = false
        <-> exists line, line ∈ Py.file_lines text /\ Py.strip line <> ""
              /\ Py.lower (Py.strip line) = Py.lower uuid_str)
    /\ (Manu.rejected (Some macs) device = false
        <-> (forall line, line ∈ Py.file_lines text -> Py.strip line = "")
            \/ exists line, line ∈ Py.file_lines text /\ Py.strip line <> ""
                 /\ Py.upper (Py.strip line) = Py.upper (address device)).
Proof.
  intros Hfs.
  unfold Uuid128.load_mac_list, Manu.load_mac_list, Uuid128.load_uuid128_list.
  rewrite Hfs. eexists _, _.
  split; [reflexivity|]. split; [reflexivity|]. split; [reflexivity|].
  assert (forall s, Py.truthy_str s = true <-> s <> "") as Htruthy.
  { intros [|c s]; simpl; split; congruence. }
  assert (forall s, Py.truthy_str s = false <-> s = "") as Hfalsy.
  { intros [|c s]; simpl; split; congruence. }
  assert (forall (f : string -> string) x,
    x ∈ Py.set_comprehension (fun line => f (Py.strip line))
          (fun line => Py.truthy_str (Py.strip line)) (Py.file_lines text)
    <-> exists line, line ∈ Py.file_lines text /\ Py.strip line <> ""
          /\ f (Py.strip line) = x) as Hmem.
  { intros f x. rewrite elem_of_set_comprehension.
    split; intros (line & Hin & Hp & Heq); exists line;
      (split; [done|]); (split; [by apply Htruthy | done]). }
  split; [|split].
  - cbn [Uuid128.filtered_out]. rewrite bool_decide_eq_false.
    rewrite <- (Hmem Py.upper). split; [apply dec_stable | auto].
  - cbn [Uuid128.filtered_out]. rewrite bool_decide_eq_false.
    rewrite <- (Hmem Py.lower). split; [apply dec_stable | auto].
  - cbn [Manu.rejected]. rewrite <- (Hmem Py.upper).
    destruct (decide (_ = ∅)) as [Hempty|Hnonempty].
    + split; [|done]. intros _. left. intros line Hline.
      apply Hfalsy. by apply (proj1 (set_comprehension_empty _ _ _) Hempty).
    + rewrite bool_decide_eq_false. split.
      * intros Hin%dec_stable. by right.
      * intros [Hblank|Hin]; [|auto].
        destruct Hnonempty. apply set_comprehension_empty.
        intros line Hline. apply Hfalsy. by apply Hblank.
Qed.

Lemma listed_identifiers_pass_witness :
  exists macs : gset string,
    result (Uuid128.load_mac_list listed_fs "macs.txt") = Done (Some macs)
    /\ Uuid128.filtered_out (Some macs)
         (Py.upper (address {| address := "Aa:Bb:Cc:Dd:Ee:Ff"; name := None |}))
       = false.
Proof.
  destruct (listed_identifiers_pass listed_fs "macs.txt" _
              {| address := "Aa:Bb:Cc:Dd:Ee:Ff"; name := None |} "" eq_refl)
    as (macs & _ & _ & Hmacs & _ & Hpass & _).
  exists macs. split; [exact Hmacs|].
  apply Hpass. exists "AA:BB:CC:DD:EE:FF
".
  split; [|split].
  - apply list_elem_of_In. vm_compute. right. right. left. reflexivity.
  - vm_compute. discriminate.
  - vm_compute. reflexivity.
Defined.

(** ** What the callbacks never do *)

Lemma flat_map_length_le {A B} (f : A -> list B) (xs : list A) :
  (forall x, length (f x) <= 1) -> length (flat_map f xs) <= length xs.
Proof.
  intros Hf. induction xs as [|x xs IH]; [done|].
  cbn [flat_map]. rewrite length_app. cbn [length].
  pose proof (Hf x). lia.
Qed.

(** No advertisement makes a callback raise, whatever the filters: the
    two value bytes are unpacked only when there are exactly two.  The
    manufacturer-data callback prints at most one line, the service-data
    callback at most one line for each service-data entry. *)
Theorem callbacks_never_raise (mac_filter uuid128_filter : option (gset string))
    (device : BLEDevice) (ad : AdvertisementData) :
  result (Manu.callback mac_filter device ad) = Done tt
  /\ result (Uuid128.callback mac_filter uuid128_filter device ad) = Done tt
  /\ length (printed (Manu.callback mac_filter device ad)) <= 1
  /\ length (printed (Uuid128.callback mac_filter uuid128_filter device ad))
     <= length (default [] (service_data ad)).
Proof.
  destruct (manu_callback_at_most_one mac_filter device ad) as [Hlen Hres].
  split; [done|].
  destruct (Uuid128.filtered_out mac_filter (Py.upper (address device)))
    eqn:Hmac.
  { rewrite uuid_callback_rejected by done. cbn.
    split; [done|]. split; [done | lia]. }
  rewrite uuid_callback_lines by done. split; [done|]. split; [done|].
  cbn [printed fst].
  etrans; [apply flat_map_length_le; intros; apply uuid_entry_at_most_one|].
  unfold Uuid128.get_service_data_payload. by rewrite length_map.
Qed.

(** ** Filters only take lines away *)

Lemma uuid_entry_without_filter uuid128_filter device ad uuid_str payload :
  Uuid128.filtered_out uuid128_filter uuid_str = false ->
  Uuid128.callback_entry uuid128_filter device ad (uuid_str, payload)
  = Uuid128.callback_entry None device ad (uuid_str, payload).
Proof. intros H. unfold Uuid128.callback_entry. by rewrite H. Qed.

Lemma uuid_entries_sublist (flt flt' : option (gset string)) device ad
    (entries : list (string * Py.bytes)) :
  (forall x, Uuid128.filtered_out flt x = false ->
             Uuid128.filtered_out flt' x = false) ->
  sublist
    (flat_map (fun entry => printed (Uuid128.callback_entry flt device ad entry))
       entries)
    (flat_map (fun entry => printed (Uuid128.callback_entry flt' device ad entry))
       entries).
Proof.
  intros Hweaker. induction entries as [|[u p] entries IH]; [done|].
  cbn [flat_map]. apply sublist_app; [|done].
  destruct (Uuid128.filtered_out flt u) eqn:Hflt.
  - rewrite uuid_entry_filtered by done. apply sublist_nil_l.
  - rewrite (uuid_entry_without_filter flt) by done.
    by rewrite (uuid_entry_without_filter flt') by auto.
Qed.

(** A filter never adds or changes a line: what a callback prints under
    any filters is a sub-list of what it prints without filters, in the
    same order, and a larger list of UUIDs prints at least what a smaller
    one does. *)
Theorem filters_only_remove_lines (mac_filter uuid128_filter : option (gset string))
    (device : BLEDevice) (ad : AdvertisementData) :
  sublist (printed (Manu.callback mac_filter device ad))
    (printed (Manu.callback None device ad))
  /\ sublist (printed (Uuid128.callback mac_filter uuid128_filter device ad))
       (printed (Uuid128.callback None None device ad))
  /\ (forall uuids uuids' : gset string,
        uuids ⊆ uuids' ->
        sublist
          (printed (Uuid128.callback mac_filter (Some uuids) device ad))
          (printed (Uuid128.callback mac_filter (Some uuids') device ad))).
Proof.
  split; [|split].
  - unfold Manu.callback at 1.
    destruct (Manu.rejected mac_filter device); [apply sublist_nil_l | done].
  - destruct (Uuid128.filtered_out mac_filter (Py.upper (address device)))
      eqn:Hmac.
    { rewrite uuid_callback_rejected by done. apply sublist_nil_l. }
    rewrite !uuid_callback_lines by done. cbn [printed fst].
    by apply uuid_entries_sublist.
  - intros uuids uuids' Hsub.
    destruct (Uuid128.filtered_out mac_filter (Py.upper (address device)))
      eqn:Hmac.
    { rewrite !uuid_callback_rejected by done. done. }
    rewrite !uuid_callback_lines by done. cbn [printed fst].
    apply uuid_entries_sublist. intros x. cbn [Uuid128.filtered_out].
    rewrite !bool_decide_eq_false. intros Hx%dec_stable. auto.
Qed.

(** ** The case of a UUID key *)

Lemma uuid_entry_same_rssi uuid128_filter device ad ad' entry :
  rssi ad' = rssi ad ->
  Uuid128.callback_entry uuid128_filter device ad' entry
  = Uuid128.callback_entry uuid128_filter device ad entry.
Proof. intros H. unfold Uuid128.callback_entry. by rewrite H. Qed.

(** The service-data callback sees the UUID keys of an event in lower
    case only.  For an event whose service data is a dict of ASCII keys
    that stay distinct when written in lower case, the same event with its
    keys written in lower case is again such a dict, and the callback
    prints for the one what it prints for the other. *)
Theorem uuid_keys_read_in_lower_case
    (mac_filter uuid128_filter : option (gset string))
    (device : BLEDevice) (ad : AdvertisementData)
    (entries : list (string * Py.bytes)) :
  service_data ad = Some entries ->
  Forall (fun entry => Reading.is_ascii entry.1 = true) entries ->
  NoDup (map (fun entry => Py.lower entry.1) entries) ->
  NoDup (map fst entries)
  /\ NoDup (map fst (map (fun entry => (Py.lower entry.1, entry.2)) entries))
  /\ Forall (fun entry => Reading.is_ascii entry.1 = true)
       (map (fun entry => (Py.lower entry.1, entry.2)) entries)
  /\ Uuid128.callback mac_filter uuid128_filter device ad
     = Uuid128.callback mac_filter uuid128_filter device
         (Report.with_service_data ad
            (map (fun entry => (Py.lower entry.1, entry.2)) entries)).
Proof.
  intros Hsd Hascii Hkeys. split; [|split; [|split]].
  - apply (NoDup_fmap_1 Py.lower).
    change (NoDup (Py.lower <$> (fst <$> entries))).
    rewrite <- list_fmap_compose. exact Hkeys.
  - by rewrite map_map.
  - apply Forall_map. eapply Forall_impl; [exact Hascii|].
    intros [u p] Hu. cbn [fst] in *. unfold Py.lower.
    by rewrite is_ascii_map_chars by apply case_char_ascii.
  - clear Hascii Hkeys.
    destruct (Uuid128.filtered_out mac_filter (Py.upper (address device)))
      eqn:Hmac.
    { by rewrite !uuid_callback_rejected. }
    rewrite (uuid_callback_entries _ _ _ _ _ Hsd Hmac).
    rewrite (uuid_callback_entries _ _ _ (Report.with_service_data ad _) _
               eq_refl Hmac).
    f_equal. clear Hsd.
    set (ad' := Report.with_service_data ad _).
    assert (rssi ad' = rssi ad) as Hrssi by done. clearbody ad'.
    induction entries as [|[u p] entries IH]; [done|].
    cbn [map flat_map fst snd]. rewrite <- IH. f_equal.
    rewrite (uuid_entry_same_rssi _ _ ad ad') by done.
    unfold Py.lower. by rewrite map_chars_idem by apply lower_char_facts.
Qed.

Lemma uuid_keys_read_in_lower_case_witness :
  Uuid128.callback None (Some {[ listed_uuid ]}) sample_device two_case_event
  = Uuid128.callback None (Some {[ listed_uuid ]}) sample_device
      (Report.with_service_data two_case_event
         [(listed_uuid, [x01; x64; x00]); (unlisted_uuid, [x01; xdc; x09])]).
Proof.
  destruct (uuid_keys_read_in_lower_case None (Some {[ listed_uuid ]})
              sample_device two_case_event
              [("0000AAAA-0000-1000-8000-00805F9B34FB", [x01; x64; x00]);
               ("0000bbbb-0000-1000-8000-00805F9B34FB", [x01; xdc; x09])]
              eq_refl)
    as (_ & _ & _ & Hsame).
  - repeat constructor.
  - apply NoDup_cons. split; [|apply NoDup_singleton].
    intros Hin. apply list_elem_of_singleton in Hin. discriminate Hin.
  - exact Hsame.
Defined.

(** ** The two parsers side by side *)

(** On a payload of three bytes or more the two parsers give the same
    type and value bytes, and without filters the two callbacks print
    lines that differ in the UUID only; on a shorter payload the
    manufacturer-data parser gives nothing, where the service-data parser
    still gives the type of a payload that is not empty. *)
Theorem parsers_agree_from_three_bytes (device : BLEDevice)
    (ad : AdvertisementData) (uuid_str : string) (payload : Py.bytes) :
  manufacturer_data ad !! 65535%Z = Some payload ->
  (3 <= length payload ->
   Manu.parse_sensor_type_and_value ad
   = Uuid128.parse_service_data (Some payload)
   /\ (Manu.callback None device ad = ([], Done tt)
       /\ Uuid128.callback_entry None device ad (uuid_str, payload)
          = ([], Done tt)
       \/ exists field,
            Manu.callback None device ad
            = ([Report.manu_line device ad field], Done tt)
            /\ Uuid128.callback_entry None device ad (uuid_str, payload)
               = ([Report.uuid_line device ad field uuid_str], Done tt)))
  /\ (length payload < 3 ->
      Manu.parse_sensor_type_and_value ad = (None, None)
      /\ forall b0 rest, payload = b0 :: rest ->
           Uuid128.parse_service_data (Some payload)
           = (Some (Py.byte_val b0), None)).
Proof.
  intros Hmd. split.
  - intros Hlen.
    destruct payload as [|b0 [|b1 [|b2 rest]]]; simpl in Hlen; [lia..|].
    split; [by rewrite (manu_parse_long _ _ _ _ _ Hmd)|].
    destruct (decide (Py.byte_val b0 = 0%Z)) as [H0|H0].
    { apply (byte_val_inj b0 x00) in H0 as ->. left.
      by rewrite (manu_callback_reserved _ _ _ _ _ _ Hmd), uuid_entry_reserved. }
    right. destruct (decide (Py.byte_val b0 = 1%Z)) as [H1|H1].
    + apply (byte_val_inj b0 x01) in H1 as ->. eexists.
      by rewrite (manu_callback_temperature None _ _ _ _ _ eq_refl Hmd),
        (uuid_entry_temperature None _ _ _ _ _ _ eq_refl).
    + eexists.
      by rewrite (manu_callback_unknown None _ _ _ _ _ _ eq_refl Hmd H0 H1),
        (uuid_entry_unknown None _ _ _ _ _ eq_refl H0 H1).
  - intros Hlen. split; [by apply manu_parse_short with payload|].
    intros b0 rest ->. apply uuid_parse_short. simpl in Hlen. lia.
Qed.

Lemma parsers_agree_from_three_bytes_witness :
  Manu.parse_sensor_type_and_value temperature_event
  = Uuid128.parse_service_data (Some [x01; xdc; x09]).
Proof.
  destruct (parsers_agree_from_three_bytes sample_device temperature_event
              listed_uuid [x01; xdc; x09] eq_refl) as [Hlong _].
  apply Hlong. simpl. lia.
Defined.

(** ** The printed fields *)

Lemma centi_text_ok_int16 :
  holds_from Reading.centi_text_ok (-32768) (Z.to_nat 65536) = true.
Proof. vm_cast_no_check (eq_refl true). Qed.

Lemma rssi_text_ok_range :
  holds_from Reading.rssi_text_ok (-999) (Z.to_nat 10999) = true.
Proof. vm_cast_no_check (eq_refl true). Qed.

(** The temperature a callback prints loses nothing: the text printed for
    the 16-bit value [t] reads back as [t] hundredths, so two different
    values never print the same text.  The text is six characters wide,
    and seven for a value below -99.99 degrees; a signal strength from
    -999 to 9999 is four characters wide and the type of an unknown sensor
    two, so the fields of successive lines stand in the same columns. *)
Theorem printed_fields_read_back (t t' rssi_value : Z) (b : byte) :
  (-32768 <= t < 32768)%Z -> (-32768 <= t' < 32768)%Z ->
  (-999 <= rssi_value <= 9999)%Z ->
  Reading.read_centi (Py.format_6_2f (Py.truediv_100 t)) = Some t
  /\ (Py.format_6_2f (Py.truediv_100 t) = Py.format_6_2f (Py.truediv_100 t') ->
      t = t')
  /\ String.length (Py.format_6_2f (Py.truediv_100 t))
     = (if (t <? -9999)%Z then 7 else 6)
  /\ String.length (Py.format_r4 rssi_value) = 4
  /\ String.length (Py.format_02X (Py.byte_val b)) = 2.
Proof.
  intros Ht Ht' Hrssi.
  assert (forall x, (-32768 <= x < 32768)%Z ->
    Reading.read_centi (Py.format_6_2f (Py.truediv_100 x)) = Some x
    /\ String.length (Py.format_6_2f (Py.truediv_100 x))
       = (if (x <? -9999)%Z then 7 else 6)) as Hback.
  { intros x Hx. rewrite format_6_2f_centi by done.
    assert (Reading.centi_text_ok x = true) as Hok.
    { apply (holds_from_spec Reading.centi_text_ok _ _ _ centi_text_ok_int16).
      lia. }
    unfold Reading.centi_text_ok in Hok. cbv zeta in Hok.
    apply andb_true_iff in Hok as [Hread Hlen].
    destruct (Reading.read_centi _) as [x'|]; [|done].
    apply Z.eqb_eq in Hread as ->. by apply Nat.eqb_eq in Hlen. }
  destruct (Hback t Ht) as [Hread Hlen].
  split; [done|]. split; [|split; [done|split]].
  - intros Heq. destruct (Hback t' Ht') as [Hread' _].
    rewrite Heq, Hread' in Hread. by injection Hread.
  - apply Nat.eqb_eq.
    apply (holds_from_spec Reading.rssi_text_ok _ _ _ rssi_text_ok_range). lia.
  - by rewrite format_02X_byte.
Qed.

Lemma printed_fields_read_back_witness :
  Reading.read_centi (Py.format_6_2f (Py.truediv_100 (-5))) = Some (-5)%Z
  /\ String.length (Py.format_6_2f (Py.truediv_100 (-10000))) = 7.
Proof.
  destruct (printed_fields_read_back (-5) (-10000) (-50) x0a
              ltac:(lia) ltac:(lia) ltac:(lia)) as (Hread & _).
  destruct (printed_fields_read_back (-10000) (-5) (-50) x0a
              ltac:(lia) ltac:(lia) ltac:(lia)) as (_ & _ & Hlen & _).
  split; [exact Hread | exact Hlen].
Defined.

(** ** How many entries, and lists put together *)

Lemma set_comprehension_size f p xs :
  size (Py.set_comprehension f p xs) <= length (List.filter p xs).
Proof.
  unfold Py.set_comprehension.
  assert (forall acc : gset string,
    size (foldl (fun acc x => if p x then {[ f x ]} ∪ acc else acc) acc xs)
    <= size acc + length (List.filter p xs)) as H.
  { induction xs as [|x xs IH]; intros acc; cbn [foldl List.filter]; [lia|].
    etrans; [apply IH|]. destruct (p x); cbn [length]; [|lia].
    rewrite size_union_alt, size_singleton.
    assert (size (acc ∖ {[ f x ]}) <= size acc) as Hle.
    { apply subseteq_size. intros y Hy.
      by apply elem_of_difference in Hy as [Hy _]. }
    lia. }
  specialize (H ∅). by rewrite size_empty in H.
Qed.

Lemma set_comprehension_app f p xs ys :
  Py.set_comprehension f p (xs ++ ys)
  = Py.set_comprehension f p xs ∪ Py.set_comprehension f p ys.
Proof.
  apply set_eq. intros x.
  rewrite elem_of_union, !elem_of_set_comprehension. split.
  - intros (line & [Hin|Hin]%elem_of_app & Hp & Hx); [left | right];
      by exists line.
  - intros [(line & Hin & Hp & Hx) | (line & Hin & Hp & Hx)]; exists line;
      (split; [apply elem_of_app; auto | done]).
Qed.

(** The number a loader reports is the number of different entries after
    stripping and the change of case: it is at most the number of
    non-blank lines, and it is 0 exactly when every line is blank. *)
Theorem loader_reports_distinct_entries (fs : Py.filesystem)
    (path text : string) :
  fs path = Py.Readable text ->
  exists macs uuids : gset string,
    Manu.load_mac_list fs path
    = (["✅ Lista de MACs carregada ("
          +:+ Py.str_of_int (Z.of_nat (size macs)) +:+ " entradas)."],
       Done (Some macs))
    /\ Uuid128.load_uuid128_list fs path
       = (["✅ Lista de UUIDs carregada ("
             +:+ Py.str_of_int (Z.of_nat (size uuids)) +:+ " entradas)."],
          Done (Some uuids))
    /\ size macs <= length (Reading.non_blank (Py.file_lines text))
    /\ size uuids <= length (Reading.non_blank (Py.file_lines text))
    /\ (size macs = 0 <-> Reading.non_blank (Py.file_lines text) = [])
    /\ (size uuids = 0 <-> Reading.non_blank (Py.file_lines text) = []).
Proof.
  intros Hfs. unfold Manu.load_mac_list, Uuid128.load_uuid128_list.
  rewrite Hfs. eexists _, _. split; [reflexivity|]. split; [reflexivity|].
  assert (forall f,
    size (Py.set_comprehension f (fun line => Py.truthy_str (Py.strip line))
            (Py.file_lines text)) = 0
    <-> Reading.non_blank (Py.file_lines text) = []) as Hzero.
  { intros f. rewrite size_empty_iff, leibniz_equiv_iff.
    rewrite set_comprehension_empty. unfold Reading.non_blank.
    generalize (Py.file_lines text). intros lines.
    induction lines as [|l lines IH]; cbn [List.filter].
    - split; [done|]. intros _ x Hx. by apply elem_of_nil in Hx.
    - destruct (Py.truthy_str (Py.strip l)) eqn:Hl.
      + split; [|done]. intros Hall.
        rewrite (Hall l) in Hl by (apply elem_of_cons; by left). done.
      + rewrite <- IH. split.
        * intros Hall x Hx. apply Hall, elem_of_cons. by right.
        * intros Hall x [->|Hx]%elem_of_cons; [done | by apply Hall]. }
  split; [apply set_comprehension_size|].
  split; [apply set_comprehension_size|].
  split; apply Hzero.
Qed.

(** Two lines of [listed_fs] spell one address: one entry is reported. *)
Lemma loader_reports_distinct_entries_witness :
  printed (Manu.load_mac_list listed_fs "macs.txt")
  = ["✅ Lista de MACs carregada (1 entradas)."]
  /\ length (Reading.non_blank (Py.file_lines " aa:bb:cc:dd:ee:ff
	
AA:BB:CC:DD:EE:FF
")) = 2.
Proof.
  destruct (loader_reports_distinct_entries listed_fs "macs.txt" _ eq_refl)
    as (macs & uuids & _ & _ & _).
  split; vm_compute; reflexivity.
Defined.

Lemma string_app_cons c s t : String c s +:+ t = String c (s +:+ t).
Proof. done. Qed.

Lemma universal_newlines_empty s : Py.universal_newlines s = "" <-> s = "".
Proof.
  destruct s as [|c s]; [done|]. split; [|done].
  cbn [Py.universal_newlines]. by destruct (Ascii.eqb c Py.CR).
Qed.

Lemma split_keepends_empty s : Py.split_keepends s = [] <-> s = "".
Proof.
  destruct s as [|c s]; [done|]. split; [|done].
  cbn [Py.split_keepends].
  destruct (Ascii.eqb c Py.LF); [done|]. by destruct (Py.split_keepends s).
Qed.

Lemma ends_lines_cons c s :
  s <> "" -> Reading.ends_lines (String c s) = Reading.ends_lines s.
Proof. by destruct s. Qed.

Lemma universal_newlines_app t1 t2 :
  Reading.ends_lines t1 = true ->
  Py.universal_newlines (t1 +:+ t2)
  = Py.universal_newlines t1 +:+ Py.universal_newlines t2.
Proof.
  induction t1 as [|c s IH]; [done|]. intros Hends.
  rewrite string_app_cons.
  destruct s as [|c' s''].
  { cbn [Reading.ends_lines] in Hends. apply Ascii.eqb_eq in Hends as ->.
    done. }
  rewrite ends_lines_cons in Hends by done. specialize (IH Hends).
  rewrite string_app_cons in *.
  cbn [Py.universal_newlines] in *.
  destruct (Ascii.eqb c Py.CR).
  - destruct (Ascii.eqb c' Py.LF) eqn:Hc'.
    + apply Ascii.eqb_eq in Hc' as ->.
      change (Ascii.eqb Py.LF Py.CR) with false in IH. cbv iota in IH.
      rewrite !string_app_cons in *. by injection IH as ->.
    + rewrite string_app_cons. by rewrite IH.
  - rewrite string_app_cons. by rewrite IH.
Qed.

Lemma universal_newlines_cons c s :
  Py.universal_newlines (String c s)
  = if Ascii.eqb c Py.CR then
      String Py.LF
        match s with
        | String c' s'' =>
            if Ascii.eqb c' Py.LF then Py.universal_newlines s''
            else Py.universal_newlines s
        | EmptyString => EmptyString
        end
    else String c (Py.universal_newlines s).
Proof. done. Qed.

Lemma ends_lines_universal_newlines t :
  Reading.ends_lines t = true ->
  Reading.ends_lines (Py.universal_newlines t) = true.
Proof.
  induction t as [|c s IH]; [done|]. intros Hends.
  destruct s as [|c' s''].
  { cbn [Reading.ends_lines] in Hends. apply Ascii.eqb_eq in Hends as ->.
    done. }
  rewrite ends_lines_cons in Hends by done. specialize (IH Hends).
  assert (Py.universal_newlines (String c' s'') <> "") as Hne
    by (intros H; by apply (proj1 (universal_newlines_empty _)) in H).
  rewrite (universal_newlines_cons c). cbv beta iota.
  destruct (Ascii.eqb c Py.CR).
  - destruct (Ascii.eqb c' Py.LF) eqn:Hc'.
    + apply Ascii.eqb_eq in Hc' as ->.
      rewrite universal_newlines_cons in IH.
      by change (Ascii.eqb Py.LF Py.CR) with false in IH.
    + by rewrite ends_lines_cons.
  - by rewrite ends_lines_cons.
Qed.

Lemma split_keepends_app a b :
  Reading.ends_lines a = true ->
  Py.split_keepends (a +:+ b) = Py.split_keepends a ++ Py.split_keepends b.
Proof.
  induction a as [|c s IH]; [done|]. intros Hends.
  rewrite string_app_cons. cbn [Py.split_keepends].
  destruct (Ascii.eqb c Py.LF) eqn:Hc.
  - rewrite IH; [done|]. destruct s; [done|]. by rewrite ends_lines_cons in Hends.
  - destruct s as [|c' s''].
    { cbn [Reading.ends_lines] in Hends. congruence. }
    rewrite ends_lines_cons in Hends by done. rewrite IH by done.
    destruct (Py.split_keepends (String c' s'')) as [|l ls] eqn:Hsplit; [|done].
    by apply split_keepends_empty in Hsplit.
Qed.

(** Lists put together: when the first of two files is empty or ends with
    a line feed, the file made of the one followed by the other loads as
    the union of what the two load. *)
Theorem joined_files_load_as_union (fs : Py.filesystem)
    (path1 path2 path12 text1 text2 : string) :
  fs path1 = Py.Readable text1 ->
  fs path2 = Py.Readable text2 ->
  fs path12 = Py.Readable (text1 +:+ text2) ->
  Reading.ends_lines text1 = true ->
  exists macs1 macs2 uuids1 uuids2 : gset string,
    result (Manu.load_mac_list fs path1) = Done (Some macs1)
    /\ result (Manu.load_mac_list fs path2) = Done (Some macs2)
    /\ result (Manu.load_mac_list fs path12) = Done (Some (macs1 ∪ macs2))
    /\ result (Uuid128.load_uuid128_list fs path1) = Done (Some uuids1)
    /\ result (Uuid128.load_uuid128_list fs path2) = Done (Some uuids2)
    /\ result (Uuid128.load_uuid128_list fs path12)
       = Done (Some (uuids1 ∪ uuids2)).
Proof.
  intros H1 H2 H12 Hends.
  unfold Manu.load_mac_list, Uuid128.load_uuid128_list.
  rewrite H1, H2, H12. eexists _, _, _, _.
  assert (Py.file_lines (text1 +:+ text2)
          = Py.file_lines text1 ++ Py.file_lines text2) as Hlines.
  { unfold Py.file_lines. rewrite universal_newlines_app by done.
    by apply split_keepends_app, ends_lines_universal_newlines. }
  split; [reflexivity|]. split; [reflexivity|].
  split; [cbn; by rewrite Hlines, set_comprehension_app|].
  split; [reflexivity|]. split; [reflexivity|].
  cbn. by rewrite Hlines, set_comprehension_app.
Qed.

(** The file [ab.txt] of [joined_fs] loads as the union of [a.txt] and
    [b.txt]. *)
Lemma joined_files_load_as_union_witness :
  exists macs1 macs2 : gset string,
    result (Manu.load_mac_list joined_fs "a.txt") = Done (Some macs1)
    /\ result (Manu.load_mac_list joined_fs "b.txt") = Done (Some macs2)
    /\ result (Manu.load_mac_list joined_fs "ab.txt")
       = Done (Some (macs1 ∪ macs2)).
Proof.
  destruct (joined_files_load_as_union joined_fs "a.txt" "b.txt" "ab.txt"
              _ _ eq_refl eq_refl eq_refl eq_refl)
    as (macs1 & macs2 & _ & _ & H1 & H2 & H12 & _).
  by exists macs1, macs2.
Defined.
